(** * simnet: a shallow embedding of the condition-application engine

    The development follows the Go sources of [picatz/simnet], package
    [simnet]:
    - [simnet.go]: [Config], its options, [randSource], [AddPartition],
      [RemovePartition];
    - the dialer ([Dialer.DialContext], [isPartitioned]) and the stream
      shim ([simulatedConn], [wrapConn]), which follow the datagram tests
      in [packet_conn_test.go];
    - the datagram shim ([simulatedPacketConn], [UDPConn]), in
      [unnamed/part_003];
    - [listener.go]: [Listener.Accept].

    Conventions of the embedding.
    - [int], [int64] and [time.Duration] are [Z]; additions on durations wrap
      at 64 bits ([add64]).
    - A finite [float64] rate or draw is the rational it denotes ([Q]); the
      comparisons [<] and [>] of the source are exact on such values.  The
      one float64 computation of the source (the transfer time) is carried
      out in IEEE-754 binary64 with [SpecFloat].
    - [math/rand] is an interface with the range laws its documentation
      gives ([RandSource]).  Generators live in a heap and are referred to
      by pointers, so that sharing between a [Config] and its shims is
      visible.
    - A method call is a computation in the monad [M]: it threads the
      [World] (generator heap, wall clock, the runtime's choices among ready
      [select] cases, the real connect attempts), and it may panic or block.
    - A channel is its buffer (a list, oldest first) and a closed flag.
    - The mutexes are not represented: every call is one atomic step, and
      the background goroutines advance by explicit steps. *)

From Stdlib Require Import ZArith QArith Floats.SpecFloat Strings.Byte.
From stdpp Require Import gmap strings list.

Local Open Scope Z_scope.

(** ** Machine integers and float64 *)

Definition wrap64 (z : Z) : Z := (z + 2 ^ 63) mod 2 ^ 64 - 2 ^ 63.
Definition add64 (a b : Z) : Z := wrap64 (a + b).
Definition in_int64 (z : Z) : bool := (- 2 ^ 63 <=? z) && (z <? 2 ^ 63).

(** [len] of a slice. *)
Definition len {A} (l : list A) : Z := Z.of_nat (length l).

(** The builtin [copy(dst, src)]: the new contents of [dst] and the number
    of elements copied. *)
Definition copy {A} (dst src : list A) : list A * Z :=
  (take (length dst) src ++ drop (length src) dst,
   Z.of_nat (Nat.min (length dst) (length src))).

Module F64.
Definition prec : Z := 53.
Definition emax : Z := 1024.
(** [float64(n)] for an integer [n] *)
Definition of_int (n : Z) : spec_float := binary_normalize prec emax n 0 false.
Definition div : spec_float -> spec_float -> spec_float := SFdiv prec emax.
Definition mul : spec_float -> spec_float -> spec_float := SFmul prec emax.
(** Truncation toward zero of a finite value. *)
Definition trunc (f : spec_float) : Z :=
  match f with
  | S754_finite s m e =>
      let a := match e with
               | Z0 => Zpos m
               | Zpos _ => Z.shiftl (Zpos m) e
               | Zneg p => Z.shiftr (Zpos m) (Zpos p)
               end in
      if s then - a else a
  | _ => 0
  end.
(** [int64(f)]; Go leaves the result for values that do not fit
    implementation-defined, the amd64 one is taken here. *)
Definition to_int64 (f : spec_float) : Z :=
  match f with
  | S754_finite _ _ _ => if in_int64 (trunc f) then trunc f else - 2 ^ 63
  | S754_zero _ => 0
  | _ => - 2 ^ 63
  end.
End F64.

(** [time.Second] in nanoseconds. *)
Definition Second : Z := 1000000000.

(** [time.Duration(float64(n) / float64(bandwidth) * float64(time.Second))] *)
Definition transferTime (n bandwidth : Z) : Z :=
  F64.to_int64 (F64.mul (F64.div (F64.of_int n) (F64.of_int bandwidth)) (F64.of_int Second)).

Definition Qltb (a b : Q) : bool := negb (Qle_bool b a).

(** ** Errors *)

Inductive error : Type :=
| errorString (s : string)                  (* errors.New(s) *)
| wrapError (msg : string) (err : error).   (* fmt.Errorf with one %w verb *)

#[global] Instance error_eq_dec : EqDecision error.
Proof. solve_decision. Defined.

Definition Error (e : error) : string :=
  match e with errorString s => s | wrapError msg _ => msg end.

(** [errors.Is]: the sentinels of this program have distinct messages, so
    identity of sentinels is equality of the values. *)
Fixpoint Is (e target : error) : bool :=
  if decide (e = target) then true
  else match e with
       | errorString _ => false
       | wrapError _ inner => Is inner target
       end.

(** [fmt.Errorf("%w" ++ mid ++ "%s", w, arg)] *)
Definition Errorf_w_s (mid : string) (w : error) (arg : string) : error :=
  wrapError (Error w +:+ mid +:+ arg) w.

Definition ErrNetworkPartitioned : error := errorString "simnet: network partitioned".
Definition ErrDialFailed : error := errorString "simnet: dial failed".
Definition ErrFailedToAccept : error := errorString "simnet: failed to accept connection".
(** [io.EOF] and [net.ErrClosed] *)
Definition EOF : error := errorString "EOF".
Definition ErrClosed : error := errorString "use of closed network connection".

(** ** The random source *)

(** [*rand.Rand] of [math/rand], seen through the three operations the
    program uses.  [Float64] returns a value in [[0,1)]; [Int63n n] returns
    a value in [[0,n)] for [n > 0] (and panics otherwise, see [Int63n]
    below). *)
Class RandSource (R : Type) : Type := {
  rand_New : Z -> R;                          (* rand.New(rand.NewSource(seed)) *)
  rand_Float64 : R -> Q * R;
  rand_Int63n : Z -> R -> Z * R;
  rand_Float64_range : forall r, (0 <= fst (rand_Float64 r))%Q /\ (fst (rand_Float64 r) < 1)%Q;
  rand_Int63n_range : forall n r, 0 < n -> 0 <= fst (rand_Int63n n r) < n
}.

(** A concrete generator (a linear congruential one), used to run the
    model on examples. *)
Definition lcg_next (s : Z) : Z := (s * 1103515245 + 12345) mod 2 ^ 31.

Definition lcg_Float64 (s : Z) : Q * Z :=
  (Qmake (lcg_next s) (2 ^ 31), lcg_next s).

Definition lcg_Int63n (n s : Z) : Z * Z := (lcg_next s mod n, lcg_next s).

#[global] Program Instance lcg : RandSource Z := {|
  rand_New seed := seed mod 2 ^ 31;
  rand_Float64 := lcg_Float64;
  rand_Int63n := lcg_Int63n
|}.
Next Obligation.
  intros r. cbn. unfold Qle, Qlt, lcg_next. cbn.
  pose proof (Z.mod_pos_bound (r * 1103515245 + 12345) (2 ^ 31) eq_refl) as Hr. lia.
Qed.
Next Obligation.
  intros n r Hn. cbn. apply Z.mod_pos_bound. exact Hn.
Qed.

(** ** The world and the monad of method calls *)

Definition ptr := nat.

Section World.
Context {R : Type}.

Record World : Type := mkWorld {
  rands : list R;                  (* the allocated *rand.Rand objects *)
  clock : Z;                       (* wall clock, nanoseconds *)
  picks : list bool;               (* choices of the runtime among ready select cases *)
  dials : list (string * string)   (* real connect attempts: network, address *)
}.

Inductive outcome (A : Type) : Type :=
| Done (a : A) (w : World)
| Blocked
| Panic (msg : string).

Definition M (A : Type) : Type := World -> outcome A.

Definition ret {A} (a : A) : M A := fun w => Done A a w.
Definition bind {A B} (m : M A) (k : A -> M B) : M B :=
  fun w => match m w with
           | Done _ a w' => k a w'
           | Blocked _ => Blocked B
           | Panic _ msg => Panic B msg
           end.
Definition block {A} : M A := fun _ => Blocked A.
Definition panic {A} (msg : string) : M A := fun _ => Panic A msg.
End World.

Arguments World R : clear implicits.
Arguments outcome R A : clear implicits.
Arguments M R A : clear implicits.
Arguments Done {R A} a w.
Arguments Blocked {R A}.
Arguments Panic {R A} msg.

Notation "x <- m ;; k" := (bind m (fun x => k))
  (at level 100, m at next level, right associativity).

(** ** Primitive operations *)

Section Primitives.
Context {R : Type} `{!RandSource R}.

(** [rand.New(...)]: a fresh generator object. *)
Definition alloc (r : R) : M R ptr :=
  fun w => Done (length (rands w))
             (mkWorld (rands w ++ [r]) (clock w) (picks w) (dials w)).

(** A method call on a [*rand.Rand]: a nil or dangling pointer panics. *)
Definition draw {A} (p : ptr) (f : R -> A * R) : M R A :=
  fun w => match rands w !! p with
           | Some r =>
               let '(a, r') := f r in
               Done a (mkWorld (<[p := r']> (rands w)) (clock w) (picks w) (dials w))
           | None => Panic "invalid memory address or nil pointer dereference"
           end.

Definition Float64 (p : ptr) : M R Q := draw p rand_Float64.

Definition Int63n (p : ptr) (n : Z) : M R Z :=
  if n <=? 0 then panic "invalid argument to Int63n" else draw p (rand_Int63n n).

(** [time.Sleep(d)] returns at once when [d <= 0]. *)
Definition Sleep (d : Z) : M R unit :=
  fun w => Done tt (mkWorld (rands w) (if 0 <? d then clock w + d else clock w)
                      (picks w) (dials w)).

(** [time.Now().UnixNano()] *)
Definition UnixNano : M R Z := fun w => Done (clock w) w.

(** The runtime's choice between two ready cases of a [select]: [true] is
    the case written first in the source. *)
Definition pick : M R bool :=
  fun w => match picks w with
           | [] => Done true w
           | b :: rest => Done b (mkWorld (rands w) (clock w) rest (dials w))
           end.

(** [close(ch)] on the closed flag of a channel. *)
Definition close_chan (closed : bool) : M R bool :=
  if closed then panic "close of closed channel" else ret true.

(** A real connect attempt is recorded. *)
Definition record_dial (network address : string) : M R unit :=
  fun w => Done tt (mkWorld (rands w) (clock w) (picks w) (dials w ++ [(network, address)])).
End Primitives.

(** ** simnet.go: the configuration *)

Record Config : Type := mkConfig {
  rand : option ptr;                          (* *rand.Rand, nil until first use *)
  Latency : Z;
  Jitter : Z;
  Bandwidth : Z;
  LossRate : Q;
  ReorderRate : Q;
  DuplicateRate : Q;
  PartitionedAddrs : option (gmap string bool);   (* None is the nil map *)
  Seed : Z
}.

Definition set_rand (p : ptr) (cfg : Config) : Config :=
  mkConfig (Some p) (Latency cfg) (Jitter cfg) (Bandwidth cfg) (LossRate cfg)
    (ReorderRate cfg) (DuplicateRate cfg) (PartitionedAddrs cfg) (Seed cfg).

Definition set_PartitionedAddrs (m : option (gmap string bool)) (cfg : Config) : Config :=
  mkConfig (rand cfg) (Latency cfg) (Jitter cfg) (Bandwidth cfg) (LossRate cfg)
    (ReorderRate cfg) (DuplicateRate cfg) m (Seed cfg).

(** An [Option] is a function that updates a [Config] in place. *)
Definition Option : Type := Config -> Config.

Definition WithLatency (latency : Z) : Option := fun cfg =>
  mkConfig (rand cfg) latency (Jitter cfg) (Bandwidth cfg) (LossRate cfg)
    (ReorderRate cfg) (DuplicateRate cfg) (PartitionedAddrs cfg) (Seed cfg).
Definition WithJitter (jitter : Z) : Option := fun cfg =>
  mkConfig (rand cfg) (Latency cfg) jitter (Bandwidth cfg) (LossRate cfg)
    (ReorderRate cfg) (DuplicateRate cfg) (PartitionedAddrs cfg) (Seed cfg).
Definition WithBandwidth (bandwidth : Z) : Option := fun cfg =>
  mkConfig (rand cfg) (Latency cfg) (Jitter cfg) bandwidth (LossRate cfg)
    (ReorderRate cfg) (DuplicateRate cfg) (PartitionedAddrs cfg) (Seed cfg).
Definition WithLossRate (lossRate : Q) : Option := fun cfg =>
  mkConfig (rand cfg) (Latency cfg) (Jitter cfg) (Bandwidth cfg) lossRate
    (ReorderRate cfg) (DuplicateRate cfg) (PartitionedAddrs cfg) (Seed cfg).
Definition WithReorderRate (reorderRate : Q) : Option := fun cfg =>
  mkConfig (rand cfg) (Latency cfg) (Jitter cfg) (Bandwidth cfg) (LossRate cfg)
    reorderRate (DuplicateRate cfg) (PartitionedAddrs cfg) (Seed cfg).
Definition WithDuplicateRate (duplicateRate : Q) : Option := fun cfg =>
  mkConfig (rand cfg) (Latency cfg) (Jitter cfg) (Bandwidth cfg) (LossRate cfg)
    (ReorderRate cfg) duplicateRate (PartitionedAddrs cfg) (Seed cfg).
Definition WithPartitionedAddrs (partitionedAddrs : gmap string bool) : Option := fun cfg =>
  let m := match PartitionedAddrs cfg with Some m => m | None => ∅ end in
  set_PartitionedAddrs (Some (partitionedAddrs ∪ m)) cfg.
Definition WithSeed (seed : Z) : Option := fun cfg =>
  mkConfig (rand cfg) (Latency cfg) (Jitter cfg) (Bandwidth cfg) (LossRate cfg)
    (ReorderRate cfg) (DuplicateRate cfg) (PartitionedAddrs cfg) seed.

Definition apply (cfg : Config) (opts : list Option) : Config :=
  foldl (fun c opt => opt c) cfg opts.

Definition NewConfig (opts : list Option) : Config :=
  apply (mkConfig None 0 0 0 0%Q 0%Q 0%Q (Some ∅) 0) opts.

(** The zero value [&simnet.Config{}]. *)
Definition zeroConfig : Config := mkConfig None 0 0 0 0%Q 0%Q 0%Q None 0.

Section ConfigMethods.
Context {R : Type} `{!RandSource R}.

(** [randSource] initializes or returns the existing generator. *)
Definition randSource (cfg : Config) : M R (ptr * Config) :=
  match rand cfg with
  | None =>
      seed <- (if negb (Seed cfg =? 0) then ret (Seed cfg) else UnixNano) ;;
      p <- alloc (rand_New seed) ;;
      ret (p, set_rand p cfg)
  | Some p => ret (p, cfg)
  end.
End ConfigMethods.

Definition AddPartition (address : string) (cfg : Config) : Config :=
  let m := match PartitionedAddrs cfg with Some m => m | None => ∅ end in
  set_PartitionedAddrs (Some (<[address := true]> m)) cfg.

(** [delete] on a nil map is a no-op. *)
Definition RemovePartition (address : string) (cfg : Config) : Config :=
  match PartitionedAddrs cfg with
  | Some m => set_PartitionedAddrs (Some (delete address m)) cfg
  | None => cfg
  end.

(** [isPartitioned]: [_, partitioned := cfg.PartitionedAddrs[address]],
    the presence of the key, whatever the boolean stored. *)
Definition isPartitioned (cfg : Config) (address : string) : bool :=
  match PartitionedAddrs cfg with
  | Some m => bool_decide (is_Some (m !! address))
  | None => false
  end.

(** ** The real transports

    What the program relies on from package [net]: a connection accepts
    writes until it is closed, and closing it twice is an error.  What a
    real read returns is an input of the step that performs it. *)

Record netConn : Type := mkNetConn {
  sent : list (list byte);     (* the payloads of the successful Write calls *)
  conn_closed : bool
}.

Definition netConn_Write (c : netConn) (data : list byte) : netConn * option error :=
  if conn_closed c then (c, Some ErrClosed)
  else (mkNetConn (sent c ++ [data]) false, None).

Definition netConn_Close (c : netConn) : netConn * option error :=
  if conn_closed c then (c, Some ErrClosed)
  else (mkNetConn (sent c) true, None).

(** ** The stream shim *)

Module Conn.

(** The fields of the Go struct, but [cfg] (the [Config] is passed to
    every call, it is shared) and [mu]; [spawned] holds the goroutines
    started by [Write] that have not run yet. *)
Record simulatedConn : Type := mk {
  conn : netConn;
  rand : ptr;
  readBuf : list byte;
  writeQueue : list (list byte);      (* buffer of the channel, capacity 100 *)
  writeQueue_closed : bool;
  closeOnce : bool;                   (* the Once has fired *)
  closed : bool;                      (* the channel closed is closed *)
  spawned : list (list byte)
}.

Definition set_conn c sc :=
  mk c (rand sc) (readBuf sc) (writeQueue sc) (writeQueue_closed sc)
    (closeOnce sc) (closed sc) (spawned sc).
Definition set_readBuf rb sc :=
  mk (conn sc) (rand sc) rb (writeQueue sc) (writeQueue_closed sc)
    (closeOnce sc) (closed sc) (spawned sc).
Definition set_writeQueue q sc :=
  mk (conn sc) (rand sc) (readBuf sc) q (writeQueue_closed sc)
    (closeOnce sc) (closed sc) (spawned sc).
Definition set_spawned l sc :=
  mk (conn sc) (rand sc) (readBuf sc) (writeQueue sc) (writeQueue_closed sc)
    (closeOnce sc) (closed sc) l.

Definition capacity : nat := 100.

Section Methods.
Context {R : Type} `{!RandSource R}.

(** [wrapConn]; the goroutine [processWriteQueue] it starts advances by
    [processWriteQueue_step]. *)
Definition wrapConn (c : netConn) (cfg : Config) : M R (simulatedConn * Config) :=
  x <- randSource cfg ;;
  ret (mk c (fst x) [] [] false false false [], snd x).

Definition simulateLoss (cfg : Config) (sc : simulatedConn) : M R bool :=
  if Qltb 0 (LossRate cfg)
  then f <- Float64 (rand sc) ;; ret (Qltb f (LossRate cfg))
  else ret false.

Definition simulateReordering (cfg : Config) (sc : simulatedConn) : M R bool :=
  if Qltb 0 (ReorderRate cfg)
  then f <- Float64 (rand sc) ;; ret (Qltb f (ReorderRate cfg))
  else ret false.

Definition simulateDuplication (cfg : Config) (sc : simulatedConn) : M R bool :=
  if Qltb 0 (DuplicateRate cfg)
  then f <- Float64 (rand sc) ;; ret (Qltb f (DuplicateRate cfg))
  else ret false.

Definition calculateLatency (cfg : Config) (sc : simulatedConn) (n : Z) : M R Z :=
  let latency := Latency cfg in
  latency <- (if 0 <? Jitter cfg
              then jitter <- Int63n (rand sc) (Jitter cfg) ;; ret (add64 latency jitter)
              else ret latency) ;;
  if (0 <? Bandwidth cfg) && (0 <? n)
  then ret (add64 latency (transferTime n (Bandwidth cfg)))
  else ret latency.

Definition simulateLatency (cfg : Config) (sc : simulatedConn) (n : Z) : M R unit :=
  delay <- calculateLatency cfg sc n ;;
  if 0 <? delay then Sleep delay else ret tt.

(** [select { case sc.writeQueue <- data: case <-sc.closed: }].  A send
    on a closed channel is ready, and panics when it is chosen. *)
Definition enqueueWrite (sc : simulatedConn) (data : list byte) : M R simulatedConn :=
  let send : M R simulatedConn :=
    if writeQueue_closed sc then panic "send on closed channel"
    else ret (set_writeQueue (writeQueue sc ++ [data]) sc) in
  let can_send := writeQueue_closed sc || (length (writeQueue sc) <? capacity)%nat in
  match can_send, closed sc with
  | false, false => block
  | true, false => send
  | false, true => ret sc
  | true, true => first <- pick ;; if first then send else ret sc
  end.

(** [Read]: [resp] is what [sc.conn.Read(buffer)] returns, the bytes
    read (at most [len(b)] of them count) and the error.  The result
    is the new contents of [b], the count and the error. *)
Definition Read (cfg : Config) (sc : simulatedConn) (b : list byte)
    (resp : list byte * option error)
  : M R (simulatedConn * (list byte * Z * option error)) :=
  lost <- simulateLoss cfg sc ;;
  if lost then ret (sc, (b, 0, Some EOF)) else
  let buffer_n := take (length b) (fst resp) in     (* buffer[:n] *)
  let n := len buffer_n in
  let err := snd resp in
  if 0 <? n then
    dup <- simulateDuplication cfg sc ;;
    let sc := if dup then set_readBuf (readBuf sc ++ buffer_n) sc else sc in
    reorder <- simulateReordering cfg sc ;;
    if reorder && (0 <? len (readBuf sc)) then
      let temp := buffer_n in
      let b' := fst (copy b (readBuf sc)) in
      let sc := set_readBuf temp sc in
      _ <- simulateLatency cfg sc n ;;
      ret (sc, (b', len b, None))
    else
      _ <- simulateLatency cfg sc n ;;
      ret (sc, (fst (copy b buffer_n), n, err))
  else ret (sc, (b, n, err)).

(** [Write]: the goroutine of the reordering branch is put in
    [spawned]; [runSpawned] runs it. *)
Definition Write (cfg : Config) (sc : simulatedConn) (b : list byte)
  : M R (simulatedConn * (Z * option error)) :=
  lost <- simulateLoss cfg sc ;;
  if lost then ret (sc, (len b, None)) else
  dup <- simulateDuplication cfg sc ;;
  sc <- (if dup then enqueueWrite sc b else ret sc) ;;
  reorder <- simulateReordering cfg sc ;;
  if reorder then
    ret (set_spawned (spawned sc ++ [b]) sc, (len b, None))
  else
    _ <- simulateLatency cfg sc (len b) ;;
    sc <- enqueueWrite sc b ;;
    ret (sc, (len b, None)).

(** The body of the goroutine of [Write]'s reordering branch, for the
    [i]-th goroutine that has not run yet. *)
Definition runSpawned (cfg : Config) (sc : simulatedConn) (i : nat) : M R simulatedConn :=
  match spawned sc !! i with
  | None => ret sc
  | Some dataCopy =>
      let sc := set_spawned (delete i (spawned sc)) sc in
      _ <- simulateLatency cfg sc (len dataCopy) ;;
      enqueueWrite sc dataCopy
  end.

Definition Close (sc : simulatedConn) : M R (simulatedConn * option error) :=
  sc <- (if closeOnce sc then ret sc
         else c <- close_chan (closed sc) ;;
              q <- close_chan (writeQueue_closed sc) ;;
              ret (mk (conn sc) (rand sc) (readBuf sc) (writeQueue sc) q true c
                     (spawned sc))) ;;
  let r := netConn_Close (conn sc) in
  ret (set_conn (fst r) sc, snd r).

(** One iteration of the loop of [processWriteQueue]; the boolean tells
    whether the goroutine goes on.  A receive on a closed channel
    yields what is left in the buffer, then [ok = false]. *)
Definition processWriteQueue_step (sc : simulatedConn) : M R (simulatedConn * bool) :=
  let recv : M R (simulatedConn * bool) :=
    match writeQueue sc with
    | data :: rest =>
        let r := netConn_Write (conn sc) data in      (* the error is dropped *)
        ret (set_conn (fst r) (set_writeQueue rest sc), true)
    | [] => ret (sc, false)
    end in
  let can_recv := writeQueue_closed sc || negb (bool_decide (writeQueue sc = [])) in
  match can_recv, closed sc with
  | false, false => block
  | true, false => recv
  | false, true => ret (sc, false)
  | true, true => first <- pick ;; if first then recv else ret (sc, false)
  end.
End Methods.
End Conn.

(** ** The datagram shim *)

(** A [net.Addr] is the string its [String] method returns. *)
Definition Addr : Type := string.

Record packet : Type := mkPacket {
  data : list byte;
  addr : Addr
}.

(** The real datagram socket: the packets of the successful WriteTo calls. *)
Record netPacketConn : Type := mkNetPacketConn {
  bound : Addr;                   (* the local address of the socket *)
  psent : list packet;
  pconn_closed : bool
}.

Definition netPacketConn_WriteTo (c : netPacketConn) (pkt : packet)
  : netPacketConn * option error :=
  if pconn_closed c then (c, Some ErrClosed)
  else (mkNetPacketConn (bound c) (psent c ++ [pkt]) false, None).

Definition netPacketConn_Close (c : netPacketConn) : netPacketConn * option error :=
  if pconn_closed c then (c, Some ErrClosed)
  else (mkNetPacketConn (bound c) (psent c) true, None).

Module PacketConn.

(** The fields of the Go struct, but [cfg] (passed to every call);
    [spawned] holds the goroutines started by [enqueuePacket] that have
    not run yet. *)
Record simulatedPacketConn : Type := mk {
  conn : netPacketConn;
  localAddr : option Addr;
  remoteAddr : option Addr;
  closed : bool;
  readQueue : list packet;        (* buffer of the channel, capacity 100 *)
  writeQueue : list packet;       (* buffer of the channel, capacity 100 *)
  rand : ptr;
  spawned : list packet
}.

Definition set_conn c spc :=
  mk c (localAddr spc) (remoteAddr spc) (closed spc) (readQueue spc)
    (writeQueue spc) (rand spc) (spawned spc).
Definition set_remoteAddr a spc :=
  mk (conn spc) (localAddr spc) a (closed spc) (readQueue spc)
    (writeQueue spc) (rand spc) (spawned spc).
Definition set_closed c spc :=
  mk (conn spc) (localAddr spc) (remoteAddr spc) c (readQueue spc)
    (writeQueue spc) (rand spc) (spawned spc).
Definition set_readQueue q spc :=
  mk (conn spc) (localAddr spc) (remoteAddr spc) (closed spc) q
    (writeQueue spc) (rand spc) (spawned spc).
Definition set_writeQueue q spc :=
  mk (conn spc) (localAddr spc) (remoteAddr spc) (closed spc) (readQueue spc)
    q (rand spc) (spawned spc).
Definition set_spawned l spc :=
  mk (conn spc) (localAddr spc) (remoteAddr spc) (closed spc) (readQueue spc)
    (writeQueue spc) (rand spc) l.

Definition capacity : nat := 100.
(** Maximum UDP packet size, the length of the buffer of [readLoop]. *)
Definition maxPacket : nat := Z.to_nat 65535.

Section Methods.
Context {R : Type} `{!RandSource R}.

(** The goroutines [readLoop] and [writeLoop] it starts advance by
    [readLoop_step] and [writeLoop_step]. *)
Definition newSimulatedPacketConn (c : netPacketConn) (rnd : ptr) : simulatedPacketConn :=
  mk c None None false [] [] rnd [].

Definition simulateLatency (cfg : Config) (spc : simulatedPacketConn) (n : Z) : M R Z :=
  let latency := Latency cfg in
  latency <- (if 0 <? Jitter cfg
              then jitter <- Int63n (rand spc) (Jitter cfg) ;; ret (add64 latency jitter)
              else ret latency) ;;
  if (0 <? Bandwidth cfg) && (0 <? n)
  then ret (add64 latency (transferTime n (Bandwidth cfg)))
  else ret latency.

Definition simulateLoss (cfg : Config) (spc : simulatedPacketConn) : M R bool :=
  if Qltb 0 (LossRate cfg)
  then f <- Float64 (rand spc) ;; ret (Qltb f (LossRate cfg))
  else ret false.

Definition simulateReordering (cfg : Config) (spc : simulatedPacketConn) : M R bool :=
  if Qltb 0 (ReorderRate cfg)
  then f <- Float64 (rand spc) ;; ret (Qltb f (ReorderRate cfg))
  else ret false.

Definition simulateDuplication (cfg : Config) (spc : simulatedPacketConn) : M R bool :=
  if Qltb 0 (DuplicateRate cfg)
  then f <- Float64 (rand spc) ;; ret (Qltb f (DuplicateRate cfg))
  else ret false.

(** [deliverPacket]: sleep, then
    [select { case spc.readQueue <- pkt: case <-spc.closed: }]. *)
Definition deliverPacket (cfg : Config) (spc : simulatedPacketConn) (pkt : packet)
  : M R simulatedPacketConn :=
  d <- simulateLatency cfg spc (len (data pkt)) ;;
  _ <- Sleep d ;;
  let send := set_readQueue (readQueue spc ++ [pkt]) spc in
  match (length (readQueue spc) <? capacity)%nat, closed spc with
  | false, false => block
  | true, false => ret send
  | false, true => ret spc
  | true, true => first <- pick ;; if first then ret send else ret spc
  end.

(** [enqueuePacket]: the goroutine of the reordering branch is put in
    [spawned]; [runSpawned] runs it. *)
Definition enqueuePacket (cfg : Config) (spc : simulatedPacketConn) (pkt : packet)
  : M R simulatedPacketConn :=
  lost <- simulateLoss cfg spc ;;
  if lost then ret spc else
  dup <- simulateDuplication cfg spc ;;
  spc <- (if dup then deliverPacket cfg spc pkt else ret spc) ;;
  reorder <- simulateReordering cfg spc ;;
  if reorder then ret (set_spawned (spawned spc ++ [pkt]) spc)
  else deliverPacket cfg spc pkt.

Definition runSpawned (cfg : Config) (spc : simulatedPacketConn) (i : nat)
  : M R simulatedPacketConn :=
  match spawned spc !! i with
  | None => ret spc
  | Some pkt =>
      let spc := set_spawned (delete i (spawned spc)) spc in
      d <- simulateLatency cfg spc (len (data pkt)) ;;
      _ <- Sleep d ;;
      deliverPacket cfg spc pkt
  end.

Definition processIncomingPacket := enqueuePacket.

(** [processOutgoingPacket]: the error of the real send is dropped. *)
Definition processOutgoingPacket (spc : simulatedPacketConn) (pkt : packet)
  : simulatedPacketConn :=
  set_conn (fst (netPacketConn_WriteTo (conn spc) pkt)) spc.

(** [ReadFrom]: the result is the new contents of [p], the count, the
    address and the error. *)
Definition ReadFrom (spc : simulatedPacketConn) (p : list byte)
  : M R (simulatedPacketConn * (list byte * Z * option Addr * option error)) :=
  let recv : M R (simulatedPacketConn * (list byte * Z * option Addr * option error)) :=
    match readQueue spc with
    | pkt :: rest =>
        let c := copy p (data pkt) in
        ret (set_readQueue rest spc, (fst c, snd c, Some (addr pkt), None))
    | [] => block
    end in
  let on_closed := ret (spc, (p, 0, None, Some ErrClosed)) in
  match negb (bool_decide (readQueue spc = [])), closed spc with
  | false, false => block
  | true, false => recv
  | false, true => on_closed
  | true, true => first <- pick ;; if first then recv else on_closed
  end.

Definition WriteTo (cfg : Config) (spc : simulatedPacketConn) (p : list byte) (a : Addr)
  : M R (simulatedPacketConn * (Z * option error)) :=
  if isPartitioned cfg a then
    ret (spc, (0, Some (Errorf_w_s ": unable to reach address: " ErrNetworkPartitioned a)))
  else
    spc <- enqueuePacket cfg spc (mkPacket p a) ;;
    ret (spc, (len p, None)).

Definition Close (spc : simulatedPacketConn) : M R (simulatedPacketConn * option error) :=
  c <- close_chan (closed spc) ;;
  let r := netPacketConn_Close (conn spc) in
  ret (set_conn (fst r) (set_closed c spc), snd r).

Definition LocalAddr (spc : simulatedPacketConn) : Addr := bound (conn spc).

(** One iteration of [readLoop]; [resp] is what the real [ReadFrom]
    returns (the packet, or an error).  The boolean tells whether the
    goroutine goes on. *)
Definition readLoop_step (cfg : Config) (spc : simulatedPacketConn)
    (resp : packet + error) : M R (simulatedPacketConn * bool) :=
  if closed spc then ret (spc, false)
  else match resp with
       | inr _ => ret (spc, true)
       | inl pkt =>
           spc <- processIncomingPacket cfg spc
                    (mkPacket (take maxPacket (data pkt)) (addr pkt)) ;;
           ret (spc, true)
       end.

(** One iteration of [writeLoop]. *)
Definition writeLoop_step (spc : simulatedPacketConn) : M R (simulatedPacketConn * bool) :=
  let recv : M R (simulatedPacketConn * bool) :=
    match writeQueue spc with
    | pkt :: rest => ret (processOutgoingPacket (set_writeQueue rest spc) pkt, true)
    | [] => block
    end in
  match closed spc, negb (bool_decide (writeQueue spc = [])) with
  | false, false => block
  | false, true => recv
  | true, false => ret (spc, false)
  | true, true => first <- pick ;; if first then ret (spc, false) else recv
  end.

(** [UDPConn]: [listen] is what [net.ListenUDP("udp", laddr)] returns. *)
Definition UDPConn (cfg : option Config) (laddr raddr : option Addr)
    (listen : netPacketConn + error)
  : M R (option (simulatedPacketConn * Config) * option error) :=
  let cfg := match cfg with Some c => c | None => NewConfig [] end in
  match listen with
  | inr err => ret (None, Some err)
  | inl c =>
      x <- randSource cfg ;;
      let spc := newSimulatedPacketConn c (fst x) in
      ret (Some (spc, snd x), None)
  end.
End Methods.
End PacketConn.

(** ** The dialer and the listener *)

Section Dialer.
Context {R : Type} `{!RandSource R}.

(** [Dialer.DialContext]: [config] is the [Config] the dialer points to
    (None for a nil pointer), [real] is what the real dialer returns when
    it is asked.  The result carries the [Config] after the call. *)
Definition DialContext (config : option Config) (network address : string)
    (real : netConn + error)
  : M R (option (Conn.simulatedConn * Config) * option error) :=
  match config with
  | None => panic "invalid memory address or nil pointer dereference"
  | Some cfg =>
      if isPartitioned cfg address then
        ret (None, Some (Errorf_w_s ": unable to reach address: " ErrNetworkPartitioned address))
      else
        _ <- record_dial network address ;;
        match real with
        | inr err => ret (None, Some (Errorf_w_s ": " ErrDialFailed (Error err)))
        | inl c => x <- Conn.wrapConn c cfg ;; ret (Some x, None)
        end
  end.

(** [Listener.Accept]: [real] is what the real listener returns. *)
Definition Accept (cfg : Config) (real : netConn + error)
  : M R (option (Conn.simulatedConn * Config) * option error) :=
  match real with
  | inr err => ret (None, Some (Errorf_w_s ": " ErrFailedToAccept (Error err)))
  | inl c => x <- Conn.wrapConn c cfg ;; ret (Some x, None)
  end.
End Dialer.

(** * The vocabulary of the statements *)

Section Vocabulary.
Context {R : Type} `{!RandSource R}.

(** The world after a draw through [p] that leaves the generator in [r']. *)
Definition drawn (p : ptr) (r' : R) (w : World R) : World R :=
  mkWorld (<[p := r']> (rands w)) (clock w) (picks w) (dials w).

Inductive effect : Type := Loss | Duplication | Reordering.

Definition rate_of (e : effect) (cfg : Config) : Q :=
  match e with
  | Loss => LossRate cfg
  | Duplication => DuplicateRate cfg
  | Reordering => ReorderRate cfg
  end.

(** The decision function of each shim for an effect. *)
Definition stream_decision (e : effect) : Config -> Conn.simulatedConn -> M R bool :=
  match e with
  | Loss => Conn.simulateLoss
  | Duplication => Conn.simulateDuplication
  | Reordering => Conn.simulateReordering
  end.

Definition datagram_decision (e : effect)
  : Config -> PacketConn.simulatedPacketConn -> M R bool :=
  match e with
  | Loss => PacketConn.simulateLoss
  | Duplication => PacketConn.simulateDuplication
  | Reordering => PacketConn.simulateReordering
  end.

(** The outcome of a call, with its result transformed. *)
Definition map_outcome {A B} (f : A -> B) (o : outcome R A) : outcome R B :=
  match o with
  | Done a w => Done (f a) w
  | Blocked => Blocked
  | Panic msg => Panic msg
  end.

Definition on_fst {A B} (f : A -> A) (x : A * B) : A * B := (f (fst x), snd x).


Definition hello : list byte := Stdlib.Strings.String.list_byte_of_string "Hello, simnet!".

(** The profile of the failing input of C3: every read is duplicated and
    reordered. *)
Definition swapping : Config := NewConfig [WithDuplicateRate 1; WithReorderRate 1].

(** A caller that writes the payloads [bs] one after the other; the
    results of the calls are collected. *)
Fixpoint writes (cfg : Config) (sc : Conn.simulatedConn) (bs : list (list byte))
  : M R (Conn.simulatedConn * list (Z * option error)) :=
  match bs with
  | [] => ret (sc, [])
  | b :: bs' =>
      x <- Conn.Write cfg sc b ;;
      y <- writes cfg (fst x) bs' ;;
      ret (fst y, snd x :: snd y)
  end.

(** The serialization delay of [n] bytes under a bandwidth cap: nothing
    without a cap or without bytes, else [n / bandwidth] seconds computed
    in float64 and truncated to nanoseconds. *)
Definition bandwidth_term (bandwidth n : Z) : Z :=
  if (0 <? bandwidth) && (0 <? n) then transferTime n bandwidth else 0.

(** The delay as the specification words it, for a jitter draw [j]. *)
Definition delay (latency j bandwidth n : Z) : Z :=
  wrap64 (latency + j + bandwidth_term bandwidth n).

Inductive shim : Type := Stream | Datagram.

(** What takes values from the random source: a decision of a shim on an
    effect, or the computation of a delay for [n] bytes. *)
Inductive drawOp : Type :=
| Decide (s : shim) (e : effect)
| DelayOf (s : shim) (n : Z).

Definition exec_draw (cfg : Config) (sc : Conn.simulatedConn)
    (spc : PacketConn.simulatedPacketConn) (op : drawOp) : M R (option bool) :=
  match op with
  | Decide Stream e => b <- stream_decision e cfg sc ;; ret (Some b)
  | Decide Datagram e => b <- datagram_decision e cfg spc ;; ret (Some b)
  | DelayOf Stream n => _ <- Conn.calculateLatency cfg sc n ;; ret None
  | DelayOf Datagram n => _ <- PacketConn.simulateLatency cfg spc n ;; ret None
  end.

(** The decisions taken along a sequence of draws ([None] stands for a
    delay computation). *)
Fixpoint decisions (cfg : Config) (sc : Conn.simulatedConn)
    (spc : PacketConn.simulatedPacketConn) (ops : list drawOp) : M R (list (option bool)) :=
  match ops with
  | [] => ret []
  | op :: ops' =>
      d <- exec_draw cfg sc spc op ;;
      ds <- decisions cfg sc spc ops' ;;
      ret (d :: ds)
  end.

(** A run: a stream shim and a datagram shim are made from the profile,
    then the draws [ops] happen. *)
Definition seeded_run (cfg : Config) (c : netConn) (pc : netPacketConn)
    (ops : list drawOp) : M R (list (option bool)) :=
  x <- Conn.wrapConn c cfg ;;
  y <- PacketConn.UDPConn (Some (snd x)) None None (inl pc) ;;
  match fst y with
  | Some (spc, cfg') => decisions cfg' (fst x) spc ops
  | None => ret []
  end.

(** The same draws on a generator held by value. *)
Definition gen_decide (rate : Q) (r : R) : bool * R :=
  if Qltb 0 rate then (Qltb (fst (rand_Float64 r)) rate, snd (rand_Float64 r))
  else (false, r).

Definition gen_delay (cfg : Config) (r : R) : R :=
  if 0 <? Jitter cfg then snd (rand_Int63n (Jitter cfg) r) else r.

Definition gen_draw (cfg : Config) (op : drawOp) (r : R) : option bool * R :=
  match op with
  | Decide _ e => let x := gen_decide (rate_of e cfg) r in (Some (fst x), snd x)
  | DelayOf _ _ => (None, gen_delay cfg r)
  end.

Fixpoint gen_decisions (cfg : Config) (ops : list drawOp) (r : R) : list (option bool) :=
  match ops with
  | [] => []
  | op :: ops' =>
      fst (gen_draw cfg op r) :: gen_decisions cfg ops' (snd (gen_draw cfg op r))
  end.

Definition transparent (cfg : Config) : Prop :=
  (LossRate cfg == 0)%Q /\ (DuplicateRate cfg == 0)%Q /\ (ReorderRate cfg == 0)%Q /\
  Latency cfg = 0 /\ Jitter cfg = 0 /\ Bandwidth cfg = 0.






(** The real connection once everything queued has been transmitted. *)
Definition flushed (sc : Conn.simulatedConn) : netConn :=
  mkNetConn (sent (Conn.conn sc) ++ Conn.writeQueue sc) (conn_closed (Conn.conn sc)).

Definition open_shim (sc : Conn.simulatedConn) : Prop :=
  Conn.closed sc = false /\ Conn.writeQueue_closed sc = false /\
  conn_closed (Conn.conn sc) = false.



(** [k] steps of the draining task. *)
Fixpoint drain (k : nat) (sc : Conn.simulatedConn) : M R Conn.simulatedConn :=
  match k with
  | O => ret sc
  | S k' => r <- Conn.processWriteQueue_step sc ;; drain k' (fst r)
  end.
End Vocabulary.

(** * The vocabulary of the further properties *)

Section Runs.
Context {R : Type} `{!RandSource R}.

(** The loop of [processWriteQueue], for at most [fuel] iterations; the
    boolean tells whether the goroutine has returned. *)
Fixpoint processWriteQueue (fuel : nat) (sc : Conn.simulatedConn)
  : M R (Conn.simulatedConn * bool) :=
  match fuel with
  | O => ret (sc, false)
  | S fuel' =>
      r <- Conn.processWriteQueue_step sc ;;
      if snd r then processWriteQueue fuel' (fst r) else ret (fst r, true)
  end.

(** The loop of [readLoop] while the real socket delivers the packets
    [pkts], one per iteration. *)
Fixpoint readLoop (cfg : Config) (spc : PacketConn.simulatedPacketConn)
    (pkts : list packet) : M R PacketConn.simulatedPacketConn :=
  match pkts with
  | [] => ret spc
  | pkt :: rest =>
      r <- PacketConn.readLoop_step cfg spc (inl pkt) ;;
      if snd r then readLoop cfg (fst r) rest else ret (fst r)
  end.

(** A caller that calls [ReadFrom] [k] times, each time with a fresh
    buffer of [size] zero bytes, and keeps [buf[:n]] and the address. *)
Fixpoint readFroms (spc : PacketConn.simulatedPacketConn) (size k : nat)
  : M R (PacketConn.simulatedPacketConn * list (list byte * option Addr)) :=
  match k with
  | O => ret (spc, [])
  | S k' =>
      r <- PacketConn.ReadFrom spc (replicate size "000"%byte) ;;
      let '(buf, n, a, _) := snd r in
      r' <- readFroms (fst r) size k' ;;
      ret (fst r', (take (Z.to_nat n) buf, a) :: snd r')
  end.

(** What can happen on a datagram shim: the calls of its user, the steps
    of its two loops and of the goroutines it has started. *)
Inductive dgram_op : Type :=
| OpWriteTo (p : list byte) (a : Addr)
| OpReadFrom (p : list byte)
| OpClose
| OpReadLoop (resp : packet + error)
| OpWriteLoop
| OpSpawned (i : nat).

Definition dgram_exec (cfg : Config) (spc : PacketConn.simulatedPacketConn)
    (op : dgram_op) : M R PacketConn.simulatedPacketConn :=
  match op with
  | OpWriteTo p a => r <- PacketConn.WriteTo cfg spc p a ;; ret (fst r)
  | OpReadFrom p => r <- PacketConn.ReadFrom spc p ;; ret (fst r)
  | OpClose => r <- PacketConn.Close spc ;; ret (fst r)
  | OpReadLoop resp => r <- PacketConn.readLoop_step cfg spc resp ;; ret (fst r)
  | OpWriteLoop => r <- PacketConn.writeLoop_step spc ;; ret (fst r)
  | OpSpawned i => PacketConn.runSpawned cfg spc i
  end.

Fixpoint dgram_run (cfg : Config) (spc : PacketConn.simulatedPacketConn)
    (ops : list dgram_op) : M R PacketConn.simulatedPacketConn :=
  match ops with
  | [] => ret spc
  | op :: ops' => spc' <- dgram_exec cfg spc op ;; dgram_run cfg spc' ops'
  end.

(** The world after the calling goroutine has slept [d] nanoseconds. *)
Definition slept (d : Z) (w : World R) : World R :=
  mkWorld (rands w) (clock w + d) (picks w) (dials w).

(** The profile draws nothing for a delay and adds no transfer time: the
    delay is the base latency [Latency], which is not negative. *)
Definition fixed_latency (cfg : Config) : Prop :=
  Jitter cfg = 0 /\ Bandwidth cfg = 0 /\ 0 <= Latency cfg.

Definition open_dgram (spc : PacketConn.simulatedPacketConn) : Prop :=
  PacketConn.closed spc = false.

(** A stream shim after [Close]: both channels and the real connection
    are closed. *)
Definition closed_shim (sc : Conn.simulatedConn) : Prop :=
  Conn.closed sc = true /\ Conn.writeQueue_closed sc = true /\
  conn_closed (Conn.conn sc) = true.

(** What [readLoop] keeps of a packet: the part that fits its buffer. *)
Definition received (pkt : packet) : packet :=
  mkPacket (take PacketConn.maxPacket (data pkt)) (addr pkt).

(** Successive [Read] calls on a stream shim: each entry is the caller's
    buffer and what the real connection returns to that call; the
    results come in call order. *)
Fixpoint reads (cfg : Config) (sc : Conn.simulatedConn)
    (xs : list (list byte * (list byte * option error)))
  : M R (Conn.simulatedConn * list (list byte * Z * option error)) :=
  match xs with
  | [] => ret (sc, [])
  | x :: rest =>
      r <- Conn.Read cfg sc (fst x) (snd x) ;;
      rs <- reads cfg (fst r) rest ;;
      ret (fst rs, snd r :: snd rs)
  end.

(** [buffer[:n]] of a [Read]: what the real connection put in a buffer
    of the size of the caller's. *)
Definition got (x : list byte * (list byte * option error)) : list byte :=
  take (length (fst x)) (fst (snd x)).
End Runs.

(** * Properties *)

(** ** Generic facts on the monad and the primitives *)

Section Facts.
Context {R : Type} `{!RandSource R}.

Lemma bind_Done {A B} (m : M R A) (k : A -> M R B) w a w' :
  m w = Done a w' -> bind m k w = k a w'.
Proof. intros E. unfold bind. rewrite E. reflexivity. Qed.

Lemma bind_ret_l {A B} (a : A) (k : A -> M R B) w : bind (ret a) k w = k a w.
Proof. reflexivity. Qed.

Lemma Qltb_true a b : Qltb a b = true <-> (a < b)%Q.
Proof.
  unfold Qltb. rewrite negb_true_iff. split.
  - intros E. apply Qnot_le_lt. intros Hle. apply Qle_bool_iff in Hle. congruence.
  - intros Hlt. destruct (Qle_bool b a) eqn:E; [|reflexivity].
    apply Qle_bool_iff in E. exfalso. exact (Qlt_not_le _ _ Hlt E).
Qed.

Lemma Qltb_false a b : Qltb a b = false <-> (b <= a)%Q.
Proof.
  unfold Qltb. rewrite negb_false_iff. apply Qle_bool_iff.
Qed.

Lemma Qltb_0_zero q : (q == 0)%Q -> Qltb 0 q = false.
Proof. intros E. apply Qltb_false. rewrite E. apply Qle_refl. Qed.

Lemma draw_Some {A} p (f : R -> A * R) (w : World R) r :
  rands w !! p = Some r ->
  draw p f w = Done (fst (f r)) (drawn p (snd (f r)) w).
Proof. intros E. unfold draw. rewrite E. destruct (f r). reflexivity. Qed.

Lemma Float64_Some p (w : World R) r :
  rands w !! p = Some r ->
  Float64 p w = Done (fst (rand_Float64 r)) (drawn p (snd (rand_Float64 r)) w).
Proof. apply draw_Some. Qed.

Lemma drawn_lookup p r' (w : World R) r :
  rands w !! p = Some r -> rands (drawn p r' w) !! p = Some r'.
Proof.
  intros E. cbn. apply list_lookup_insert_eq. eapply lookup_lt_Some; eassumption.
Qed.
End Facts.

(** ** Disabled effects consume no randomness *)

Section Decisions.
Context {R : Type} `{!RandSource R}.

(** C5: when the rate of an effect is 0, the decision function of either
    shim answers [false] and leaves the world as it found it: no value
    is taken from the shared random source, so whatever is computed next
    sees the same generator state as if the decision had not been
    evaluated. *)
Theorem zero_rate_short_circuits (e : effect) (cfg : Config)
    (sc : Conn.simulatedConn) (spc : PacketConn.simulatedPacketConn) (w : World R) :
  (rate_of e cfg == 0)%Q ->
  stream_decision e cfg sc w = Done false w /\
  datagram_decision e cfg spc w = Done false w /\
  (forall A (k : bool -> M R A), bind (stream_decision e cfg sc) k w = k false w) /\
  (forall A (k : bool -> M R A), bind (datagram_decision e cfg spc) k w = k false w).
Proof.
  intros Hz. apply Qltb_0_zero in Hz.
  assert (Hs : stream_decision e cfg sc w = Done false w).
  { destruct e; cbn in *;
      unfold Conn.simulateLoss, Conn.simulateDuplication, Conn.simulateReordering;
      rewrite Hz; reflexivity. }
  assert (Hd : datagram_decision e cfg spc w = Done false w).
  { destruct e; cbn in *;
      unfold PacketConn.simulateLoss, PacketConn.simulateDuplication,
        PacketConn.simulateReordering;
      rewrite Hz; reflexivity. }
  repeat split; try assumption; intros A k; apply bind_Done; assumption.
Qed.
End Decisions.

Lemma zero_rate_short_circuits_witness :
  let cfg := NewConfig [WithLossRate (1 # 2)] in
  let sc := Conn.mk (mkNetConn [] false) 0%nat [] [] false false false [] in
  let spc := PacketConn.newSimulatedPacketConn (mkNetPacketConn "127.0.0.1:8080" [] false) 0%nat in
  let w : World Z := mkWorld [rand_New 42] 0 [] [] in
  (rate_of Duplication cfg == 0)%Q /\
  stream_decision Duplication cfg sc w = Done false w /\
  datagram_decision Duplication cfg spc w = Done false w.
Proof.
  cbv zeta. split; [reflexivity|].
  pose proof (zero_rate_short_circuits Duplication (NewConfig [WithLossRate (1 # 2)])
    (Conn.mk (mkNetConn [] false) 0%nat [] [] false false false [])
    (PacketConn.newSimulatedPacketConn (mkNetPacketConn "127.0.0.1:8080" [] false) 0%nat)
    (mkWorld [rand_New 42] 0 [] [])) as Hw.
  destruct Hw as (H1 & H2 & _); [reflexivity|].
  split; assumption.
Defined.


(** ** Partitions and dial failures *)



Lemma Is_refl e : Is e e = true.
Proof. destruct e; cbn; rewrite decide_True; reflexivity. Qed.

Lemma Is_Errorf_w_s mid w arg : Is (Errorf_w_s mid w arg) w = true.
Proof.
  unfold Errorf_w_s. cbn. destruct (decide _); [reflexivity|]. apply Is_refl.
Qed.

Section Partition.
Context {R : Type} `{!RandSource R}.

End Partition.


(** ** The remote address given to [UDPConn] *)

Ltac split_matches :=
  repeat (match goal with
          | |- context [match ?x with _ => _ end] => destruct x eqn:?
          end; cbn in *; try reflexivity; try discriminate).

Section UDP.
Context {R : Type} `{!RandSource R}.

Abbreviation with_raddr := PacketConn.set_remoteAddr.

Lemma deliverPacket_remoteAddr ra cfg spc pkt (w : World R) :
  PacketConn.deliverPacket cfg (with_raddr ra spc) pkt w
  = map_outcome (with_raddr ra) (PacketConn.deliverPacket cfg spc pkt w).
Proof.
  destruct spc. unfold PacketConn.deliverPacket, PacketConn.simulateLatency, bind.
  cbn. split_matches.
Qed.

Lemma enqueuePacket_remoteAddr ra cfg spc pkt (w : World R) :
  PacketConn.enqueuePacket cfg (with_raddr ra spc) pkt w
  = map_outcome (with_raddr ra) (PacketConn.enqueuePacket cfg spc pkt w).
Proof.
  unfold PacketConn.enqueuePacket.
  change (PacketConn.simulateLoss cfg (with_raddr ra spc))
    with (PacketConn.simulateLoss cfg spc).
  change (PacketConn.simulateDuplication cfg (with_raddr ra spc))
    with (PacketConn.simulateDuplication cfg spc).
  unfold bind at 1 5.
  destruct (PacketConn.simulateLoss cfg spc w) as [[|] w1| |]; try reflexivity.
  unfold bind at 1 4.
  destruct (PacketConn.simulateDuplication cfg spc w1) as [dup w2| |]; try reflexivity.
  unfold bind at 1 3.
  assert (Hd : (if dup then PacketConn.deliverPacket cfg (with_raddr ra spc) pkt
                else ret (with_raddr ra spc)) w2
               = map_outcome (with_raddr ra)
                   ((if dup then PacketConn.deliverPacket cfg spc pkt else ret spc) w2)).
  { destruct dup; [apply deliverPacket_remoteAddr|reflexivity]. }
  rewrite Hd.
  destruct ((if dup then PacketConn.deliverPacket cfg spc pkt else ret spc) w2)
    as [spc1 w3| |]; try reflexivity.
  cbn [map_outcome].
  change (PacketConn.simulateReordering cfg (with_raddr ra spc1))
    with (PacketConn.simulateReordering cfg spc1).
  unfold bind.
  destruct (PacketConn.simulateReordering cfg spc1 w3) as [[|] w4| |]; try reflexivity.
  apply deliverPacket_remoteAddr.
Qed.

Lemma WriteTo_remoteAddr ra cfg spc p a (w : World R) :
  PacketConn.WriteTo cfg (with_raddr ra spc) p a w
  = map_outcome (on_fst (with_raddr ra)) (PacketConn.WriteTo cfg spc p a w).
Proof.
  unfold PacketConn.WriteTo. destruct (isPartitioned cfg a); [reflexivity|].
  unfold bind. rewrite enqueuePacket_remoteAddr.
  destruct (PacketConn.enqueuePacket cfg spc (mkPacket p a) w); reflexivity.
Qed.

Lemma ReadFrom_remoteAddr ra spc p (w : World R) :
  PacketConn.ReadFrom (with_raddr ra spc) p w
  = map_outcome (on_fst (with_raddr ra)) (PacketConn.ReadFrom spc p w).
Proof.
  destruct spc. unfold PacketConn.ReadFrom, bind. cbn. split_matches.
Qed.

Lemma Close_remoteAddr ra spc (w : World R) :
  PacketConn.Close (with_raddr ra spc) w
  = map_outcome (on_fst (with_raddr ra)) (PacketConn.Close spc w).
Proof.
  destruct spc. unfold PacketConn.Close, bind, close_chan. cbn. split_matches.
Qed.

Lemma readLoop_remoteAddr ra cfg spc resp (w : World R) :
  PacketConn.readLoop_step cfg (with_raddr ra spc) resp w
  = map_outcome (on_fst (with_raddr ra)) (PacketConn.readLoop_step cfg spc resp w).
Proof.
  unfold PacketConn.readLoop_step, PacketConn.processIncomingPacket.
  change (PacketConn.closed (with_raddr ra spc)) with (PacketConn.closed spc).
  destruct (PacketConn.closed spc); [reflexivity|].
  destruct resp as [pkt|e]; [|reflexivity].
  unfold bind. rewrite enqueuePacket_remoteAddr.
  destruct (PacketConn.enqueuePacket cfg spc _ w); reflexivity.
Qed.

Lemma writeLoop_remoteAddr ra spc (w : World R) :
  PacketConn.writeLoop_step (with_raddr ra spc) w
  = map_outcome (on_fst (with_raddr ra)) (PacketConn.writeLoop_step spc w).
Proof.
  destruct spc. unfold PacketConn.writeLoop_step, bind. cbn. split_matches.
Qed.

(** C10: [UDPConn] does not depend on its [raddr] argument: called with
    two remote addresses (or none) and otherwise equal arguments in the
    same world, it yields the same connection, the same profile and the
    same world, so every later operation behaves alike.  The [remoteAddr]
    field of the connection is never set, and no path reads it: whatever
    the field holds, [WriteTo], [ReadFrom], [Close] and the steps of the
    two loops have the same outcome, leave the same world and keep the
    field as it is. *)
Theorem UDPConn_ignores_raddr (cfg : option Config) (laddr raddr1 raddr2 : option Addr)
    (listen : netPacketConn + error) (w : World R) :
  PacketConn.UDPConn cfg laddr raddr1 listen w = PacketConn.UDPConn cfg laddr raddr2 listen w /\
  (forall spc cfg' err w',
     PacketConn.UDPConn cfg laddr raddr1 listen w = Done (Some (spc, cfg'), err) w' ->
     PacketConn.remoteAddr spc = None) /\
  (forall ra c spc p a resp (w0 : World R),
     PacketConn.WriteTo c (with_raddr ra spc) p a w0
       = map_outcome (on_fst (with_raddr ra)) (PacketConn.WriteTo c spc p a w0) /\
     PacketConn.ReadFrom (with_raddr ra spc) p w0
       = map_outcome (on_fst (with_raddr ra)) (PacketConn.ReadFrom spc p w0) /\
     PacketConn.Close (with_raddr ra spc) w0
       = map_outcome (on_fst (with_raddr ra)) (PacketConn.Close spc w0) /\
     PacketConn.readLoop_step c (with_raddr ra spc) resp w0
       = map_outcome (on_fst (with_raddr ra)) (PacketConn.readLoop_step c spc resp w0) /\
     PacketConn.writeLoop_step (with_raddr ra spc) w0
       = map_outcome (on_fst (with_raddr ra)) (PacketConn.writeLoop_step spc w0)).
Proof.
  split; [reflexivity|]. split.
  - intros spc cfg' err w'. unfold PacketConn.UDPConn.
    destruct listen as [c|e]; [|discriminate].
    unfold bind. destruct (randSource _ w) as [[q c'] w1| |]; try discriminate.
    cbn. intros E. inversion E; subst. reflexivity.
  - intros ra c spc p a resp w0.
    split; [apply WriteTo_remoteAddr|]. split; [apply ReadFrom_remoteAddr|].
    split; [apply Close_remoteAddr|]. split; [apply readLoop_remoteAddr|].
    apply writeLoop_remoteAddr.
Qed.
End UDP.

(** ** Closing twice *)

Section CloseTwice.
Context {R : Type} `{!RandSource R}.

(** C4 (the code at the failing input): on a datagram shim the first
    [Close] succeeds and the second one panics, closing a closed channel.
    On a stream shim the Once protects the channels: the second [Close]
    does not panic, leaves the shim as it is, and returns what closing the
    real connection once more returns. *)
Theorem Close_twice (c : netPacketConn) (c' : netConn) (rnd : ptr) (w : World R) :
  pconn_closed c = false -> conn_closed c' = false ->
  (exists spc1,
     PacketConn.Close (PacketConn.newSimulatedPacketConn c rnd) w = Done (spc1, None) w /\
     PacketConn.closed spc1 = true /\
     PacketConn.Close spc1 w = Panic "close of closed channel") /\
  (exists sc1,
     Conn.Close (Conn.mk c' rnd [] [] false false false []) w = Done (sc1, None) w /\
     Conn.closed sc1 = true /\ Conn.writeQueue_closed sc1 = true /\
     Conn.Close sc1 w = Done (sc1, snd (netConn_Close (Conn.conn sc1))) w).
Proof.
  intros Hc Hc'. split.
  - eexists. split.
    + unfold PacketConn.Close, netPacketConn_Close. cbn. rewrite Hc. reflexivity.
    + split; reflexivity.
  - eexists. split.
    + unfold Conn.Close, netConn_Close. cbn. rewrite Hc'. reflexivity.
    + repeat split; reflexivity.
Qed.
End CloseTwice.

Lemma Close_twice_witness :
  exists spc1,
    PacketConn.Close
      (PacketConn.newSimulatedPacketConn (mkNetPacketConn "127.0.0.1:8080" [] false) 0%nat)
      (mkWorld [rand_New 42] 0 [] []) = Done (spc1, None) (mkWorld [rand_New 42] 0 [] []) /\
    PacketConn.Close spc1 (mkWorld [rand_New 42] 0 [] []) = Panic "close of closed channel".
Proof.
  destruct (proj1 (Close_twice (mkNetPacketConn "127.0.0.1:8080" [] false) (mkNetConn [] false)
                     0%nat (mkWorld [rand_New 42] 0 [] []) eq_refl eq_refl))
    as (spc1 & H1 & _ & H2).
  exists spc1. split; assumption.
Defined.

(** ** Where a datagram written with [WriteTo] goes *)

Section Inversion.
Context {R : Type} `{!RandSource R}.

Lemma bind_inv {A B} (m : M R A) (k : A -> M R B) w b w' :
  bind m k w = Done b w' -> exists a w1, m w = Done a w1 /\ k a w1 = Done b w'.
Proof.
  unfold bind. destruct (m w) as [a w1| |]; try discriminate. eauto.
Qed.

Lemma ret_inv {A} (a b : A) (w w' : World R) : ret a w = Done b w' -> a = b /\ w = w'.
Proof. unfold ret. intros E. inversion E. auto. Qed.

Lemma deliverPacket_frame cfg spc pkt (w : World R) spc' w' :
  PacketConn.deliverPacket cfg spc pkt w = Done spc' w' ->
  PacketConn.writeQueue spc' = PacketConn.writeQueue spc /\
  PacketConn.conn spc' = PacketConn.conn spc /\
  PacketConn.spawned spc' = PacketConn.spawned spc.
Proof.
  unfold PacketConn.deliverPacket. intros E.
  apply bind_inv in E as (d & w1 & _ & E).
  apply bind_inv in E as (u & w2 & _ & E).
  destruct (_ <? _)%nat, (PacketConn.closed spc); try discriminate.
  - apply bind_inv in E as (first & w3 & _ & E).
    destruct first; apply ret_inv in E as [<- _]; auto.
  - apply ret_inv in E as [<- _]. auto.
  - apply ret_inv in E as [<- _]. auto.
Qed.

Lemma enqueuePacket_frame cfg spc pkt (w : World R) spc' w' :
  PacketConn.enqueuePacket cfg spc pkt w = Done spc' w' ->
  PacketConn.writeQueue spc' = PacketConn.writeQueue spc /\
  PacketConn.conn spc' = PacketConn.conn spc.
Proof.
  unfold PacketConn.enqueuePacket. intros E.
  apply bind_inv in E as (lost & w1 & _ & E).
  destruct lost; [apply ret_inv in E as [<- _]; auto|].
  apply bind_inv in E as (dup & w2 & _ & E).
  apply bind_inv in E as (spc1 & w3 & E1 & E).
  assert (H1 : PacketConn.writeQueue spc1 = PacketConn.writeQueue spc /\
               PacketConn.conn spc1 = PacketConn.conn spc).
  { destruct dup.
    - apply deliverPacket_frame in E1 as (? & ? & _). auto.
    - apply ret_inv in E1 as [<- _]. auto. }
  destruct H1 as [Hq Hc].
  apply bind_inv in E as (reorder & w4 & _ & E).
  destruct reorder.
  - apply ret_inv in E as [<- _]. cbn. auto.
  - apply deliverPacket_frame in E as (? & ? & _). split; congruence.
Qed.

(** C1 (the code at the failing input): with no effect configured, the
    shim bound to 127.0.0.1:8080 writes "Hello, simnet!" to
    127.0.0.1:8081.  The packet lands on the read queue of the sender
    itself; the write queue stays empty, so the outbound task has nothing
    to take and blocks, and the real socket transmits nothing; the
    sender's own [ReadFrom] returns the 14 bytes with the destination
    address.  And this holds of every [WriteTo]: whatever the profile, the
    payload and the address, the call leaves the write queue and the real
    socket as they were. *)
Theorem WriteTo_feeds_own_read_queue (w : World R) :
  (exists spc cfg w1 spc' spc'',
     PacketConn.UDPConn (Some zeroConfig) (Some "127.0.0.1:8080") (Some "127.0.0.1:8081")
       (inl (mkNetPacketConn "127.0.0.1:8080" [] false)) w = Done (Some (spc, cfg), None) w1 /\
     PacketConn.WriteTo cfg spc hello "127.0.0.1:8081" w1 = Done (spc', (14, None)) w1 /\
     PacketConn.readQueue spc' = [mkPacket hello "127.0.0.1:8081"] /\
     PacketConn.writeQueue spc' = [] /\
     psent (PacketConn.conn spc') = [] /\
     PacketConn.writeLoop_step spc' w1 = Blocked /\
     PacketConn.ReadFrom spc' (replicate 16 "000"%byte) w1
       = Done (spc'', (hello ++ replicate 2 "000"%byte, 14, Some "127.0.0.1:8081", None)) w1) /\
  (forall cfg spc p a (w0 w' : World R) spc' r,
     PacketConn.WriteTo cfg spc p a w0 = Done (spc', r) w' ->
     PacketConn.writeQueue spc' = PacketConn.writeQueue spc /\
     PacketConn.conn spc' = PacketConn.conn spc).
Proof.
  split.
  - do 5 eexists. split; [reflexivity|]. split.
    { unfold PacketConn.WriteTo, PacketConn.enqueuePacket, PacketConn.deliverPacket,
        PacketConn.simulateLatency, bind, ret, Sleep. cbn. destruct w; reflexivity. }
    cbn. repeat split; reflexivity.
  - intros cfg spc p a w0 w' spc' r. unfold PacketConn.WriteTo.
    destruct (isPartitioned cfg a).
    + intros E. apply ret_inv in E as [E _]. inversion E; subst. auto.
    + intros E. apply bind_inv in E as (spc1 & w1 & E1 & E).
      apply ret_inv in E as [E _]. inversion E; subst.
      eapply enqueuePacket_frame; eassumption.
Qed.
End Inversion.

(** ** Decisions that always succeed *)

Section RateOne.
Context {R : Type} `{!RandSource R}.

Lemma Qltb_0_one q : (q == 1)%Q -> Qltb 0 q = true.
Proof. intros E. apply Qltb_true. rewrite E. reflexivity. Qed.

Lemma Float64_below_one r q : (q == 1)%Q -> Qltb (fst (rand_Float64 r)) q = true.
Proof. intros E. apply Qltb_true. rewrite E. apply rand_Float64_range. Qed.

Lemma simulateLoss_one cfg sc (w : World R) r :
  (LossRate cfg == 1)%Q -> rands w !! Conn.rand sc = Some r ->
  Conn.simulateLoss cfg sc w = Done true (drawn (Conn.rand sc) (snd (rand_Float64 r)) w).
Proof.
  intros E Hr. unfold Conn.simulateLoss. rewrite (Qltb_0_one _ E).
  erewrite bind_Done by (apply Float64_Some; eassumption).
  unfold ret. rewrite (Float64_below_one _ _ E). reflexivity.
Qed.

Lemma simulateDuplication_one cfg sc (w : World R) r :
  (DuplicateRate cfg == 1)%Q -> rands w !! Conn.rand sc = Some r ->
  Conn.simulateDuplication cfg sc w
    = Done true (drawn (Conn.rand sc) (snd (rand_Float64 r)) w).
Proof.
  intros E Hr. unfold Conn.simulateDuplication. rewrite (Qltb_0_one _ E).
  erewrite bind_Done by (apply Float64_Some; eassumption).
  unfold ret. rewrite (Float64_below_one _ _ E). reflexivity.
Qed.

Lemma simulateReordering_one cfg sc (w : World R) r :
  (ReorderRate cfg == 1)%Q -> rands w !! Conn.rand sc = Some r ->
  Conn.simulateReordering cfg sc w
    = Done true (drawn (Conn.rand sc) (snd (rand_Float64 r)) w).
Proof.
  intros E Hr. unfold Conn.simulateReordering. rewrite (Qltb_0_one _ E).
  erewrite bind_Done by (apply Float64_Some; eassumption).
  unfold ret. rewrite (Float64_below_one _ _ E). reflexivity.
Qed.

(** C3 (the code at the failing input): a stream shim wraps a connection
    under a profile with duplication and reordering rates 1.  The caller
    reads into a buffer of four zero bytes and the real connection
    delivers the two bytes 07 08.  The swap branch copies the two retained
    bytes and returns the capacity of the buffer: [Read] reports 4 bytes
    and a nil error, and the last two of them were never read from the
    connection. *)
Theorem Read_swap_returns_capacity (w : World R) :
  exists sc cfg w1 sc' w2,
    Conn.wrapConn (mkNetConn [] false) swapping w = Done (sc, cfg) w1 /\
    Conn.Read cfg sc ["000"; "000"; "000"; "000"]%byte (["007"; "008"]%byte, None) w1
      = Done (sc', (["007"; "008"; "000"; "000"]%byte, 4, None)) w2 /\
    Conn.readBuf sc' = ["007"; "008"]%byte.
Proof.
  exists (Conn.mk (mkNetConn [] false) (length (rands w)) [] [] false false false []).
  exists (set_rand (length (rands w)) swapping).
  set (p := length (rands w)).
  set (w1 := mkWorld (rands w ++ [rand_New (clock w)]) (clock w) (picks w) (dials w)).
  exists w1.
  assert (Hp : rands w1 !! p = Some (rand_New (clock w))).
  { cbn. subst p. rewrite lookup_app_r by lia. rewrite Nat.sub_diag. reflexivity. }
  set (r1 := snd (rand_Float64 (rand_New (clock w)))).
  set (w2 := drawn p r1 w1).
  assert (Hp2 : rands w2 !! p = Some r1) by (eapply drawn_lookup; exact Hp).
  set (w3 := drawn p (snd (rand_Float64 r1)) w2).
  eexists. exists w3. split; [reflexivity|].
  unfold Conn.Read.
  erewrite bind_Done by (unfold Conn.simulateLoss; cbn; reflexivity).
  cbn -[bind Conn.simulateDuplication Conn.simulateReordering Conn.simulateLatency].
  change (0 <? len ["007"%byte; "008"%byte]) with true. cbv iota.
  erewrite bind_Done
    by (apply (simulateDuplication_one (set_rand p swapping)); [reflexivity|exact Hp]).
  cbn -[bind Conn.simulateDuplication Conn.simulateReordering Conn.simulateLatency].
  erewrite bind_Done
    by (apply (simulateReordering_one (set_rand p swapping)); [reflexivity|exact Hp2]).
  cbn. split; reflexivity.
Qed.
End RateOne.

(** ** Simulated loss on the stream shim *)

Section StreamLoss.
Context {R : Type} `{!RandSource R}.

Lemma Write_lost cfg sc b (w w1 : World R) :
  Conn.simulateLoss cfg sc w = Done true w1 ->
  Conn.Write cfg sc b w = Done (sc, (len b, None)) w1.
Proof. intros E. unfold Conn.Write. erewrite bind_Done by exact E. reflexivity. Qed.

Lemma Read_lost cfg sc b resp (w w1 : World R) :
  Conn.simulateLoss cfg sc w = Done true w1 ->
  Conn.Read cfg sc b resp w = Done (sc, (b, 0, Some EOF)) w1.
Proof. intros E. unfold Conn.Read. erewrite bind_Done by exact E. reflexivity. Qed.

Lemma writes_all_lost cfg sc bs : forall (w : World R) r,
  (LossRate cfg == 1)%Q -> rands w !! Conn.rand sc = Some r ->
  exists w' r',
    writes cfg sc bs w = Done (sc, map (fun b => (len b, None)) bs) w' /\
    rands w' !! Conn.rand sc = Some r' /\ clock w' = clock w.
Proof.
  induction bs as [|b bs IH]; intros w r E Hr.
  - exists w, r. auto.
  - pose proof (simulateLoss_one cfg sc w r E Hr) as Hl.
    apply (Write_lost _ _ b) in Hl.
    destruct (IH (drawn (Conn.rand sc) (snd (rand_Float64 r)) w) _ E
                (drawn_lookup _ _ _ _ Hr)) as (w' & r' & Hw & Hr' & Hc).
    exists w', r'. split; [|auto].
    cbn [writes]. erewrite bind_Done by exact Hl.
    cbn [fst snd]. erewrite bind_Done by exact Hw. reflexivity.
Qed.

(** C7: when the loss draw of a stream shim succeeds, [Write] returns the
    length of its input and a nil error and leaves the shim as it was, so
    nothing is put on the transmit queue; [Read] returns 0 and [io.EOF]
    whatever the real connection would deliver, and leaves the shim and
    the caller's buffer as they were.  With a loss rate of 1 the draw
    always succeeds: every write of a sequence reports success, the shim
    is unchanged after them (its queue and what the real connection has
    sent), and on an empty queue the draining task stays blocked. *)
Theorem stream_loss_is_silent (cfg : Config) (sc : Conn.simulatedConn) (w : World R) :
  (forall w1, Conn.simulateLoss cfg sc w = Done true w1 ->
     (forall b, Conn.Write cfg sc b w = Done (sc, (len b, None)) w1) /\
     (forall b resp, Conn.Read cfg sc b resp w = Done (sc, (b, 0, Some EOF)) w1)) /\
  ((LossRate cfg == 1)%Q -> is_Some (rands w !! Conn.rand sc) ->
     forall bs, exists w',
       writes cfg sc bs w = Done (sc, map (fun b => (len b, None)) bs) w' /\
       (Conn.writeQueue sc = [] -> Conn.closed sc = false ->
        Conn.writeQueue_closed sc = false ->
        Conn.processWriteQueue_step sc w' = Blocked)).
Proof.
  split.
  - intros w1 E. split; intros; [apply Write_lost|apply Read_lost]; exact E.
  - intros E [r Hr] bs.
    destruct (writes_all_lost cfg sc bs w r E Hr) as (w' & r' & Hw & _ & _).
    exists w'. split; [exact Hw|].
    intros Hq Hc Hqc. unfold Conn.processWriteQueue_step.
    rewrite Hq, Hc, Hqc. reflexivity.
Qed.
End StreamLoss.

Lemma stream_loss_is_silent_witness :
  let cfg := set_rand 0%nat (NewConfig [WithLossRate 1]) in
  let sc := Conn.mk (mkNetConn [] false) 0%nat [] [] false false false [] in
  let w : World Z := mkWorld [rand_New 42] 0 [] [] in
  (LossRate cfg == 1)%Q /\ is_Some (rands w !! Conn.rand sc) /\
  (exists w1, Conn.simulateLoss cfg sc w = Done true w1 /\
     Conn.Write cfg sc hello w = Done (sc, (14, None)) w1 /\
     Conn.Read cfg sc [] ([], None) w = Done (sc, ([], 0, Some EOF)) w1) /\
  (exists w', writes cfg sc [hello; hello] w = Done (sc, [(14, None); (14, None)]) w' /\
     Conn.processWriteQueue_step sc w' = Blocked).
Proof.
  cbv zeta.
  pose proof (stream_loss_is_silent (set_rand 0%nat (NewConfig [WithLossRate 1]))
    (Conn.mk (mkNetConn [] false) 0%nat [] [] false false false [])
    (mkWorld [rand_New 42] 0 [] [])) as [H1 H2].
  split; [reflexivity|]. split; [eexists; reflexivity|]. split.
  - eexists. split; [vm_compute; reflexivity|].
    destruct (H1 _ ltac:(vm_compute; reflexivity)) as [Hw Hr].
    split; [apply (Hw hello)|apply (Hr [] ([], None))].
  - destruct (H2 ltac:(reflexivity) ltac:(eexists; reflexivity) [hello; hello])
      as (w' & Hw & Hb).
    exists w'. split; [exact Hw|]. apply Hb; reflexivity.
Defined.

(** ** The delay *)



Example transferTime_one_second : transferTime 1024 1024 = Second.
Proof. vm_compute. reflexivity. Qed.

Example transferTime_hello : transferTime 14 (256 * 1024) = 53405.
Proof. vm_compute. reflexivity. Qed.

(** The quotient and the product are rounded in float64 before the
    truncation: 3 bytes at 12.5 MB/s take 240 ns, the code computes 239. *)
Example transferTime_rounds : transferTime 3 12500000 = 239.
Proof. vm_compute. reflexivity. Qed.

Lemma bandwidth_term_no_cap n : bandwidth_term 0 n = 0.
Proof. reflexivity. Qed.

Section Delay.
Context {R : Type} `{!RandSource R}.

Lemma Int63n_Some p n (w : World R) r :
  0 < n -> rands w !! p = Some r ->
  Int63n p n w = Done (fst (rand_Int63n n r)) (drawn p (snd (rand_Int63n n r)) w).
Proof.
  intros Hn Hr. unfold Int63n.
  destruct (n <=? 0) eqn:E; [apply Z.leb_le in E; lia|].
  apply draw_Some. exact Hr.
Qed.

End Delay.


(** ** The random source of a seeded profile *)

Section Seeded.
Context {R : Type} `{!RandSource R}.

Lemma drawn_same p r (w : World R) : rands w !! p = Some r -> drawn p r w = w.
Proof.
  intros E. unfold drawn. rewrite list_insert_id by exact E. destruct w; reflexivity.
Qed.

Lemma drawn_drawn p r1 r2 (w : World R) : drawn p r2 (drawn p r1 w) = drawn p r2 w.
Proof. unfold drawn. cbn. rewrite list_insert_insert_eq. reflexivity. Qed.

Lemma decide_gen rate p (w : World R) r :
  rands w !! p = Some r ->
  (if Qltb 0 rate then f <- Float64 p ;; ret (Qltb f rate) else ret false) w
  = Done (fst (gen_decide rate r)) (drawn p (snd (gen_decide rate r)) w).
Proof.
  intros Hr. unfold gen_decide. destruct (Qltb 0 rate).
  - erewrite bind_Done by (apply Float64_Some; exact Hr). reflexivity.
  - cbn. rewrite drawn_same by exact Hr. reflexivity.
Qed.

Lemma delay_gen cfg sc spc n (w : World R) r :
  PacketConn.rand spc = Conn.rand sc -> rands w !! Conn.rand sc = Some r ->
  (exists d, Conn.calculateLatency cfg sc n w = Done d (drawn (Conn.rand sc) (gen_delay cfg r) w)) /\
  (exists d, PacketConn.simulateLatency cfg spc n w
             = Done d (drawn (Conn.rand sc) (gen_delay cfg r) w)).
Proof.
  intros Hp Hr.
  unfold Conn.calculateLatency, PacketConn.simulateLatency, gen_delay. rewrite Hp.
  destruct (0 <? Jitter cfg) eqn:Ej.
  - apply Z.ltb_lt in Ej.
    assert (Hd : forall k : Z -> M R Z,
              bind (bind (Int63n (Conn.rand sc) (Jitter cfg))
                      (fun jitter => ret (add64 (Latency cfg) jitter))) k w
              = k (add64 (Latency cfg) (fst (rand_Int63n (Jitter cfg) r)))
                  (drawn (Conn.rand sc) (snd (rand_Int63n (Jitter cfg) r)) w)).
    { intros k. apply bind_Done. erewrite bind_Done by (apply Int63n_Some; eassumption).
      reflexivity. }
    rewrite !Hd.
    destruct ((0 <? Bandwidth cfg) && (0 <? n)); split; eexists; reflexivity.
  - rewrite drawn_same by exact Hr. rewrite !bind_ret_l.
    destruct ((0 <? Bandwidth cfg) && (0 <? n)); split; eexists; reflexivity.
Qed.

Lemma exec_draw_gen cfg sc spc op (w : World R) r :
  PacketConn.rand spc = Conn.rand sc -> rands w !! Conn.rand sc = Some r ->
  exec_draw cfg sc spc op w
  = Done (fst (gen_draw cfg op r)) (drawn (Conn.rand sc) (snd (gen_draw cfg op r)) w).
Proof.
  intros Hp Hr. destruct op as [[|] e|[|] n]; cbn [exec_draw gen_draw fst snd].
  - erewrite bind_Done; [reflexivity|].
    destruct e; cbn [stream_decision rate_of]; apply decide_gen; exact Hr.
  - erewrite bind_Done; [reflexivity|].
    destruct e; cbn [datagram_decision rate_of];
      unfold PacketConn.simulateLoss, PacketConn.simulateDuplication,
        PacketConn.simulateReordering; rewrite Hp; apply decide_gen; exact Hr.
  - destruct (delay_gen cfg sc spc n w r Hp Hr) as [[d Hd] _].
    erewrite bind_Done by exact Hd. reflexivity.
  - destruct (delay_gen cfg sc spc n w r Hp Hr) as [_ [d Hd]].
    erewrite bind_Done by exact Hd. reflexivity.
Qed.

Lemma decisions_gen cfg sc spc ops : forall (w : World R) r,
  PacketConn.rand spc = Conn.rand sc -> rands w !! Conn.rand sc = Some r ->
  exists r', decisions cfg sc spc ops w
             = Done (gen_decisions cfg ops r) (drawn (Conn.rand sc) r' w).
Proof.
  induction ops as [|op ops IH]; intros w r Hp Hr.
  - exists r. cbn. rewrite drawn_same by exact Hr. reflexivity.
  - destruct (IH (drawn (Conn.rand sc) (snd (gen_draw cfg op r)) w)
                (snd (gen_draw cfg op r)) Hp (drawn_lookup _ _ _ _ Hr)) as [r' Hd].
    exists r'. cbn [decisions gen_decisions].
    erewrite bind_Done by (apply exec_draw_gen; eassumption).
    erewrite bind_Done by exact Hd.
    rewrite drawn_drawn. reflexivity.
Qed.

Lemma gen_decisions_set_rand p cfg ops r :
  gen_decisions (set_rand p cfg) ops r = gen_decisions cfg ops r.
Proof.
  revert r. induction ops as [|op ops IH]; intros r; [reflexivity|].
  cbn [gen_decisions].
  assert (E : gen_draw (set_rand p cfg) op r = gen_draw cfg op r).
  { destruct op as [s e|s n]; [destruct e|]; reflexivity. }
  rewrite E, IH. reflexivity.
Qed.

(** C9: for a profile with a non-zero seed whose source does not exist
    yet, the first [randSource] creates it from the seed alone (the clock
    is not consulted) and stores it in the profile; from then on
    [randSource] returns that same source and creates nothing, and the
    stream and datagram shims made from the profile all hold it.  Hence a
    run that makes shims from the profile and then performs any sequence
    of draws takes the same decisions in every world (whatever its clock,
    its other generators, its scheduling choices): those of a generator
    freshly seeded with [Seed]. *)
Theorem seeded_source_shared_and_reproducible (cfg : Config) (c : netConn)
    (pc : netPacketConn) (w : World R) :
  rand cfg = None -> Seed cfg <> 0 ->
  let p := length (rands w) in
  let cfg' := set_rand p cfg in
  randSource cfg w
    = Done (p, cfg') (mkWorld (rands w ++ [rand_New (Seed cfg)]) (clock w) (picks w) (dials w)) /\
  (forall w1 : World R, randSource cfg' w1 = Done (p, cfg') w1) /\
  (forall w1 : World R, exists sc,
     Conn.wrapConn c cfg' w1 = Done (sc, cfg') w1 /\ Conn.rand sc = p) /\
  (forall (w1 : World R) laddr raddr, exists spc,
     PacketConn.UDPConn (Some cfg') laddr raddr (inl pc) w1 = Done (Some (spc, cfg'), None) w1 /\
     PacketConn.rand spc = p) /\
  (forall (ops : list drawOp) (w2 : World R), exists w2',
     seeded_run cfg c pc ops w2
     = Done (gen_decisions cfg ops (rand_New (Seed cfg))) w2').
Proof.
  intros Hnone Hseed. cbv zeta.
  assert (Hfirst : forall w0 : World R,
            randSource cfg w0
            = Done (length (rands w0), set_rand (length (rands w0)) cfg)
                (mkWorld (rands w0 ++ [rand_New (Seed cfg)]) (clock w0) (picks w0) (dials w0))).
  { intros w0. unfold randSource. rewrite Hnone.
    destruct (Seed cfg =? 0) eqn:E; [apply Z.eqb_eq in E; contradiction|].
    reflexivity. }
  split; [apply Hfirst|].
  split; [reflexivity|].
  split; [intros w1; eexists; split; reflexivity|].
  split; [intros w1 laddr raddr; eexists; split; reflexivity|].
  intros ops w2.
  set (p := length (rands w2)).
  set (w3 := mkWorld (rands w2 ++ [rand_New (Seed cfg)]) (clock w2) (picks w2) (dials w2)).
  set (sc := Conn.mk c p [] [] false false false []).
  set (spc := PacketConn.newSimulatedPacketConn pc p).
  assert (Hr : rands w3 !! Conn.rand sc = Some (rand_New (Seed cfg))).
  { cbn. subst p. rewrite lookup_app_r by lia. rewrite Nat.sub_diag. reflexivity. }
  destruct (decisions_gen (set_rand p cfg) sc spc ops w3 _ eq_refl Hr) as [r' Hd].
  exists (drawn (Conn.rand sc) r' w3).
  unfold seeded_run, Conn.wrapConn.
  erewrite bind_Done; [|erewrite bind_Done by apply Hfirst; reflexivity].
  cbn [fst snd]. fold p. fold w3.
  erewrite bind_Done by reflexivity.
  cbn [fst]. fold sc. fold spc.
  cbn [snd]. rewrite Hd, gen_decisions_set_rand. reflexivity.
Qed.
End Seeded.

Lemma seeded_source_shared_and_reproducible_witness :
  let cfg := NewConfig [WithSeed 42; WithLossRate (1 # 2); WithReorderRate (1 # 3)] in
  let ops := [Decide Stream Loss; Decide Datagram Reordering; DelayOf Stream 14;
              Decide Stream Duplication; Decide Datagram Loss] in
  rand cfg = None /\ Seed cfg <> 0 /\
  forall w2 : World Z, exists w2',
    seeded_run cfg (mkNetConn [] false) (mkNetPacketConn "127.0.0.1:8080" [] false) ops w2
    = Done [Some false; Some false; None; Some false; Some true] w2'.
Proof.
  cbv zeta. split; [reflexivity|]. split; [discriminate|].
  intros w2.
  destruct (seeded_source_shared_and_reproducible
    (NewConfig [WithSeed 42; WithLossRate (1 # 2); WithReorderRate (1 # 3)])
    (mkNetConn [] false) (mkNetPacketConn "127.0.0.1:8080" [] false)
    (mkWorld [] 0 [] []) eq_refl ltac:(discriminate)) as (_ & _ & _ & _ & Hrun).
  destruct (Hrun [Decide Stream Loss; Decide Datagram Reordering; DelayOf Stream 14;
                  Decide Stream Duplication; Decide Datagram Loss] w2) as [w2' Hw].
  exists w2'. rewrite Hw. reflexivity.
Defined.

(** ** Transparency of the stream shim under a profile without effects *)

Section Transparent.
Context {R : Type} `{!RandSource R}.


Lemma copy_nil {A} (b : list A) : fst (copy b []) = b.
Proof. unfold copy. cbn. rewrite take_nil. reflexivity. Qed.


Lemma Drain_open sc (w : World R) :
  open_shim sc ->
  Conn.processWriteQueue_step sc w
  = match Conn.writeQueue sc with
    | d :: q =>
        Done (Conn.set_conn (mkNetConn (sent (Conn.conn sc) ++ [d]) false)
                (Conn.set_writeQueue q sc), true) w
    | [] => Blocked
    end.
Proof.
  intros (Hc & Hqc & Hcc). unfold Conn.processWriteQueue_step. rewrite Hc, Hqc.
  destruct (Conn.writeQueue sc) as [|d q]; [reflexivity|].
  cbn. unfold netConn_Write. rewrite Hcc. reflexivity.
Qed.



Lemma drain_all sc : forall (w : World R) k,
  open_shim sc -> k = length (Conn.writeQueue sc) ->
  exists sc', drain k sc w = Done sc' w /\ open_shim sc' /\
              Conn.writeQueue sc' = [] /\ Conn.conn sc' = flushed sc.
Proof.
  intros w k. revert sc. induction k as [|k IH]; intros sc Ho Hk.
  - exists sc. pose proof Ho as (_ & _ & Hcc).
    destruct (Conn.writeQueue sc) eqn:Eq; [|discriminate].
    split; [reflexivity|]. split; [exact Ho|]. split; [reflexivity|].
    unfold flushed. rewrite Eq, app_nil_r. destruct (Conn.conn sc); reflexivity.
  - pose proof Ho as (Hc & Hqc & Hcc).
    destruct (Conn.writeQueue sc) as [|d q] eqn:Eq; [discriminate|].
    cbn in Hk. injection Hk as Hk.
    destruct (IH (Conn.set_conn (mkNetConn (sent (Conn.conn sc) ++ [d]) false)
                    (Conn.set_writeQueue q sc)))
      as (sc' & Hd & Ho' & Hq' & Hc'); [repeat split; assumption|exact Hk|].
    exists sc'. cbn [drain]. erewrite bind_Done by (rewrite Drain_open, Eq; auto).
    split; [exact Hd|]. split; [exact Ho'|]. split; [exact Hq'|].
    rewrite Hc'. unfold flushed. cbn. rewrite Eq, Hcc, <- app_assoc. reflexivity.
Qed.

End Transparent.


Section TransparentShim.
Context {R : Type} `{!RandSource R}.

End TransparentShim.


(** * Further properties of the code *)

(** ** The partition set *)

(** X1: adding an address makes exactly that address partitioned and
    removing it makes exactly that address reachable, also on a profile
    whose partition map is nil; every other address keeps its status. *)
Theorem partition_add_remove (cfg : Config) (a b : string) :
  isPartitioned (AddPartition a cfg) b = bool_decide (a = b) || isPartitioned cfg b /\
  isPartitioned (RemovePartition a cfg) b = negb (bool_decide (a = b)) && isPartitioned cfg b /\
  isPartitioned (RemovePartition a (AddPartition a cfg)) a = false /\
  isPartitioned (AddPartition a (RemovePartition a cfg)) a = true.
Proof.
  assert (Hadd : forall c x y,
            isPartitioned (AddPartition x c) y = bool_decide (x = y) || isPartitioned c y).
  { intros c x y. unfold isPartitioned, AddPartition. cbn.
    destruct (decide (x = y)) as [->|E].
    - rewrite (bool_decide_eq_true_2 (y = y)) by reflexivity. cbn.
      apply bool_decide_eq_true. rewrite lookup_insert_eq. eauto.
    - rewrite (bool_decide_eq_false_2 (x = y)) by exact E. cbn.
      rewrite lookup_insert_ne by exact E.
      destruct (PartitionedAddrs c) as [m|]; [reflexivity|].
      apply bool_decide_eq_false. rewrite lookup_empty. intros [? ?]. discriminate. }
  assert (Hrem : forall c x y,
            isPartitioned (RemovePartition x c) y
            = negb (bool_decide (x = y)) && isPartitioned c y).
  { intros c x y. unfold isPartitioned, RemovePartition.
    destruct (PartitionedAddrs c) as [m|] eqn:Em; cbn;
      [|rewrite Em; symmetry; apply andb_false_r].
    destruct (decide (x = y)) as [->|E].
    - rewrite (bool_decide_eq_true_2 (y = y)) by reflexivity. cbn.
      apply bool_decide_eq_false. rewrite lookup_delete_eq. intros [? ?]. discriminate.
    - rewrite (bool_decide_eq_false_2 (x = y)) by exact E. cbn.
      rewrite lookup_delete_ne by exact E. reflexivity. }
  split; [apply Hadd|]. split; [apply Hrem|]. split.
  - rewrite Hrem, bool_decide_eq_true_2 by reflexivity. reflexivity.
  - rewrite Hadd, bool_decide_eq_true_2 by reflexivity. reflexivity.
Qed.

(** X2: [WithPartitionedAddrs] adds the keys of the given map to the
    partition set and keeps the addresses already there; an address
    listed with the value [false] is partitioned like one listed with
    [true], since [isPartitioned] looks at the presence of the key. *)
Theorem WithPartitionedAddrs_presence (m : gmap string bool) (cfg : Config) (a : string) :
  isPartitioned (WithPartitionedAddrs m cfg) a
  = bool_decide (is_Some (m !! a)) || isPartitioned cfg a.
Proof.
  unfold isPartitioned, WithPartitionedAddrs. cbn.
  destruct (PartitionedAddrs cfg) as [m0|].
  - destruct (m !! a) as [v|] eqn:Ea.
    + rewrite (bool_decide_eq_true_2 (is_Some (Some v))) by eauto. cbn.
      apply bool_decide_eq_true. exists v. apply lookup_union_Some_l. exact Ea.
    + rewrite (bool_decide_eq_false_2 (is_Some None)) by (intros [? ?]; discriminate).
      cbn. rewrite lookup_union_r by exact Ea. reflexivity.
  - rewrite map_union_empty. rewrite orb_false_r. reflexivity.
Qed.

(** ** The dialer and the listener *)

Section DialAccept.
Context {R : Type} `{!RandSource R}.

(** X3: every error of [DialContext] comes without a connection and
    matches exactly one of the two sentinels: [ErrNetworkPartitioned] when
    the address is in the partition set, else [ErrDialFailed].  In the
    second case the real connect did fail, and its cause is not in the
    chain of the error: [errors.Is] finds it only if it is
    [ErrDialFailed] itself. *)
Theorem DialContext_errors_classified (cfg : Config) (network address : string)
    (real : netConn + error) (w w' : World R)
    (r : option (Conn.simulatedConn * Config)) (e : error) :
  DialContext (Some cfg) network address real w = Done (r, Some e) w' ->
  r = None /\
  (if isPartitioned cfg address
   then Is e ErrNetworkPartitioned = true /\ Is e ErrDialFailed = false /\ w' = w
   else Is e ErrDialFailed = true /\ Is e ErrNetworkPartitioned = false /\
        exists cause, real = inr cause /\
          forall target, Is e target = true -> target = e \/ target = ErrDialFailed).
Proof.
  unfold DialContext. destruct (isPartitioned cfg address).
  - intros E. apply ret_inv in E as [E <-]. inversion E; subst. repeat split; reflexivity.
  - intros E. apply bind_inv in E as (u & w1 & _ & E).
    destruct real as [c|cause].
    + apply bind_inv in E as (x & w2 & _ & E). apply ret_inv in E as [E _]. discriminate.
    + apply ret_inv in E as [E _]. inversion E; subst.
      split; [reflexivity|]. split; [apply Is_Errorf_w_s|]. split; [reflexivity|].
      exists cause. split; [reflexivity|].
      intros target. unfold Errorf_w_s. cbn [Is].
      destruct (decide (_ = target)) as [<-|_]; [auto|].
      unfold ErrDialFailed. cbn [Is].
      destruct (decide (_ = target)) as [<-|_]; [auto|discriminate].
Qed.

(** X4: a successful real connect to an address outside the partition set
    is recorded once and wrapped: the shim holds that connection, empty
    queues and the random source of the profile, which the profile now
    stores; the partition set is unchanged.  A dialer whose profile is nil
    panics, while [UDPConn] replaces a nil profile by [NewConfig()]. *)
Theorem DialContext_wraps (cfg : Config) (network address : string) (c : netConn)
    (w : World R) :
  isPartitioned cfg address = false ->
  (exists sc cfg' w',
     DialContext (Some cfg) network address (inl c) w = Done (Some (sc, cfg'), None) w' /\
     sc = Conn.mk c (Conn.rand sc) [] [] false false false [] /\
     rand cfg' = Some (Conn.rand sc) /\
     (forall p, rand cfg = Some p -> Conn.rand sc = p) /\
     PartitionedAddrs cfg' = PartitionedAddrs cfg /\
     dials w' = dials w ++ [(network, address)]) /\
  (forall real, DialContext None network address real w
                = Panic "invalid memory address or nil pointer dereference") /\
  (forall laddr raddr listen,
     PacketConn.UDPConn None laddr raddr listen w
     = PacketConn.UDPConn (Some (NewConfig [])) laddr raddr listen w).
Proof.
  intros Hp. split; [|split; [reflexivity|reflexivity]].
  unfold DialContext. rewrite Hp.
  unfold Conn.wrapConn, randSource, record_dial, bind, ret.
  destruct (rand cfg) as [p|] eqn:Er; cbn.
  - do 3 eexists. split; [reflexivity|]. cbn. repeat split; try assumption.
    intros q Hq. congruence.
  - destruct (Seed cfg =? 0); cbn;
      (do 3 eexists; split; [reflexivity|]; cbn; repeat split; intros; discriminate).
Qed.

(** X5: [Accept] never consults the partition set: with any partition
    map put in the profile it does what it does without, so a connection
    is accepted even when a partition is configured.  A failure of the
    real accept gives an error that matches [ErrFailedToAccept] and ends
    with the text of the cause, and creates no random source. *)
Theorem Accept_ignores_partitions (cfg : Config) (real : netConn + error)
    (m : option (gmap string bool)) (w : World R) :
  Accept (set_PartitionedAddrs m cfg) real w
  = map_outcome
      (fun r => (option_map (fun x => (fst x, set_PartitionedAddrs m (snd x))) (fst r), snd r))
      (Accept cfg real w) /\
  (forall c, exists sc cfg' w',
     Accept cfg (inl c) w = Done (Some (sc, cfg'), None) w' /\ Conn.conn sc = c) /\
  (forall cause, exists e,
     Accept cfg (inr cause) w = Done (None, Some e) w /\
     Is e ErrFailedToAccept = true /\
     Error e = Error ErrFailedToAccept +:+ ": " +:+ Error cause).
Proof.
  split; [|split].
  - unfold Accept. destruct real as [c|cause]; [|reflexivity].
    unfold Conn.wrapConn, randSource, bind, ret. cbn.
    destruct (rand cfg) as [p|]; cbn; [reflexivity|].
    destruct (Seed cfg =? 0); reflexivity.
  - intros c. unfold Accept, Conn.wrapConn, randSource, bind, ret.
    destruct (rand cfg) as [p|]; cbn; [do 3 eexists; split; reflexivity|].
    destruct (Seed cfg =? 0); cbn; do 3 eexists; split; reflexivity.
  - intros cause. eexists. split; [reflexivity|]. split; [apply Is_Errorf_w_s|reflexivity].
Qed.
End DialAccept.

Lemma DialContext_errors_classified_witness :
  exists e,
    DialContext (Some (NewConfig [])) "tcp" "10.0.0.1:443"
      (inr (errorString "connection refused")) (mkWorld [rand_New 42] 0 [] [])
    = Done (None, Some e) (mkWorld [rand_New 42] 0 [] [("tcp", "10.0.0.1:443")]) /\
    Is e ErrDialFailed = true /\ Is e ErrNetworkPartitioned = false /\
    Is e (errorString "connection refused") = false.
Proof.
  eexists. split; [reflexivity|].
  destruct (DialContext_errors_classified (NewConfig []) "tcp" "10.0.0.1:443"
    (inr (errorString "connection refused")) (mkWorld [rand_New 42] 0 [] []) _ _ _ eq_refl)
    as [_ H].
  change (isPartitioned (NewConfig []) "10.0.0.1:443") with false in H.
  destruct H as (H1 & H2 & cause & Hc & H3).
  split; [exact H1|]. split; [exact H2|].
  destruct (Is _ (errorString "connection refused")) eqn:E; [|reflexivity].
  destruct (H3 _ E) as [H|H]; discriminate H.
Defined.

Lemma DialContext_wraps_witness :
  exists sc cfg' w',
    DialContext (Some (NewConfig [WithSeed 7])) "tcp" "10.0.0.1:443" (inl (mkNetConn [] false))
      (mkWorld ([] : list Z) 0 [] []) = Done (Some (sc, cfg'), None) w' /\
    rand cfg' = Some (Conn.rand sc) /\ dials w' = [("tcp", "10.0.0.1:443")].
Proof.
  destruct (DialContext_wraps (NewConfig [WithSeed 7]) "tcp" "10.0.0.1:443" (mkNetConn [] false)
              (mkWorld ([] : list Z) 0 [] []) eq_refl)
    as ((sc & cfg' & w' & H1 & _ & H3 & _ & _ & H6) & _).
  exists sc, cfg', w'. repeat split; assumption.
Defined.

(** ** Steps of the two shims under given decisions *)

Section Steps.
Context {R : Type} `{!RandSource R}.

Lemma gen_decide_zero rate (r : R) : (rate == 0)%Q -> gen_decide rate r = (false, r).
Proof. intros E. unfold gen_decide. rewrite (Qltb_0_zero _ E). reflexivity. Qed.

Lemma gen_decide_one rate (r : R) :
  (rate == 1)%Q -> gen_decide rate r = (true, snd (rand_Float64 r)).
Proof.
  intros E. unfold gen_decide. rewrite (Qltb_0_one _ E), (Float64_below_one _ _ E).
  reflexivity.
Qed.

Lemma stream_decision_gen e cfg sc (w : World R) r :
  rands w !! Conn.rand sc = Some r ->
  stream_decision e cfg sc w
  = Done (fst (gen_decide (rate_of e cfg) r))
      (drawn (Conn.rand sc) (snd (gen_decide (rate_of e cfg) r)) w).
Proof. intros Hr. destruct e; apply decide_gen; exact Hr. Qed.

Lemma datagram_decision_gen e cfg spc (w : World R) r :
  rands w !! PacketConn.rand spc = Some r ->
  datagram_decision e cfg spc w
  = Done (fst (gen_decide (rate_of e cfg) r))
      (drawn (PacketConn.rand spc) (snd (gen_decide (rate_of e cfg) r)) w).
Proof. intros Hr. destruct e; apply decide_gen; exact Hr. Qed.

Lemma stream_decision_off e cfg sc (w : World R) :
  (rate_of e cfg == 0)%Q -> stream_decision e cfg sc w = Done false w.
Proof.
  intros E. apply Qltb_0_zero in E.
  destruct e; cbn in *;
    unfold Conn.simulateLoss, Conn.simulateDuplication, Conn.simulateReordering;
    rewrite E; reflexivity.
Qed.

Lemma datagram_decision_off e cfg spc (w : World R) :
  (rate_of e cfg == 0)%Q -> datagram_decision e cfg spc w = Done false w.
Proof.
  intros E. apply Qltb_0_zero in E.
  destruct e; cbn in *;
    unfold PacketConn.simulateLoss, PacketConn.simulateDuplication,
      PacketConn.simulateReordering;
    rewrite E; reflexivity.
Qed.

Lemma stream_decision_on e cfg sc (w : World R) r :
  (rate_of e cfg == 1)%Q -> rands w !! Conn.rand sc = Some r ->
  stream_decision e cfg sc w = Done true (drawn (Conn.rand sc) (snd (rand_Float64 r)) w).
Proof.
  intros E Hr. rewrite (stream_decision_gen _ _ _ _ _ Hr), (gen_decide_one _ _ E).
  reflexivity.
Qed.

Lemma datagram_decision_on e cfg spc (w : World R) r :
  (rate_of e cfg == 1)%Q -> rands w !! PacketConn.rand spc = Some r ->
  datagram_decision e cfg spc w
  = Done true (drawn (PacketConn.rand spc) (snd (rand_Float64 r)) w).
Proof.
  intros E Hr. rewrite (datagram_decision_gen _ _ _ _ _ Hr), (gen_decide_one _ _ E).
  reflexivity.
Qed.

Lemma slept_0 (w : World R) : slept 0 w = w.
Proof. unfold slept. rewrite Z.add_0_r. destruct w; reflexivity. Qed.

Lemma Sleep_slept d (w : World R) : 0 <= d -> Sleep d w = Done tt (slept d w).
Proof.
  intros Hd. unfold Sleep, slept. destruct (0 <? d) eqn:E; [reflexivity|].
  apply Z.ltb_ge in E. replace d with 0 by lia. rewrite Z.add_0_r. reflexivity.
Qed.

Lemma slept_slept a b (w : World R) : slept b (slept a w) = slept (a + b) w.
Proof. unfold slept. cbn. rewrite Z.add_assoc. reflexivity. Qed.

Lemma calculateLatency_fixed cfg sc n (w : World R) :
  fixed_latency cfg -> Conn.calculateLatency cfg sc n w = Done (Latency cfg) w.
Proof.
  intros (Hj & Hb & _). unfold Conn.calculateLatency. rewrite Hj, Hb. reflexivity.
Qed.

Lemma simulateLatency_fixed cfg sc n (w : World R) :
  fixed_latency cfg -> Conn.simulateLatency cfg sc n w = Done tt (slept (Latency cfg) w).
Proof.
  intros Hf. pose proof Hf as (_ & _ & Hl). unfold Conn.simulateLatency.
  erewrite bind_Done by (apply calculateLatency_fixed; exact Hf).
  destruct (0 <? Latency cfg) eqn:E.
  - apply Sleep_slept. exact Hl.
  - apply Z.ltb_ge in E. replace (Latency cfg) with 0 by lia. rewrite slept_0. reflexivity.
Qed.

Lemma packet_simulateLatency_fixed cfg spc n (w : World R) :
  fixed_latency cfg -> PacketConn.simulateLatency cfg spc n w = Done (Latency cfg) w.
Proof.
  intros (Hj & Hb & _). unfold PacketConn.simulateLatency. rewrite Hj, Hb. reflexivity.
Qed.

Lemma enqueueWrite_open sc data (w : World R) :
  open_shim sc -> (length (Conn.writeQueue sc) < Conn.capacity)%nat ->
  Conn.enqueueWrite sc data w
  = Done (Conn.set_writeQueue (Conn.writeQueue sc ++ [data]) sc) w.
Proof.
  intros (Hc & Hq & _) Hlen. unfold Conn.enqueueWrite. rewrite Hc, Hq.
  apply Nat.ltb_lt in Hlen. rewrite Hlen. reflexivity.
Qed.

Lemma deliverPacket_open cfg spc pkt (w : World R) :
  fixed_latency cfg -> open_dgram spc ->
  (length (PacketConn.readQueue spc) < PacketConn.capacity)%nat ->
  PacketConn.deliverPacket cfg spc pkt w
  = Done (PacketConn.set_readQueue (PacketConn.readQueue spc ++ [pkt]) spc)
      (slept (Latency cfg) w).
Proof.
  intros Hf Ho Hlen. pose proof Hf as (_ & _ & Hl). unfold PacketConn.deliverPacket.
  erewrite bind_Done by (apply packet_simulateLatency_fixed; exact Hf).
  erewrite bind_Done by (apply Sleep_slept; exact Hl).
  apply Nat.ltb_lt in Hlen. rewrite Hlen, Ho. reflexivity.
Qed.
End Steps.

(** ** The write path of the stream shim *)

Section StreamWrites.
Context {R : Type} `{!RandSource R}.

(** X6: when the loss draw fails, the duplication draw succeeds and the
    reordering draw fails (rates 0, 1, 0) on an open shim with room for
    two entries, [Write] queues the payload twice behind what is queued,
    after sleeping the latency once; the draining task then hands the
    payload to the real connection twice, in that place. *)
Theorem Write_duplicates (cfg : Config) (sc : Conn.simulatedConn) (b : list byte)
    (w : World R) (r : R) :
  (LossRate cfg == 0)%Q -> (DuplicateRate cfg == 1)%Q -> (ReorderRate cfg == 0)%Q ->
  fixed_latency cfg -> open_shim sc ->
  (length (Conn.writeQueue sc) + 2 <= Conn.capacity)%nat ->
  rands w !! Conn.rand sc = Some r ->
  let w' := slept (Latency cfg) (drawn (Conn.rand sc) (snd (rand_Float64 r)) w) in
  let sc' := Conn.set_writeQueue (Conn.writeQueue sc ++ [b; b]) sc in
  Conn.Write cfg sc b w = Done (sc', (len b, None)) w' /\
  exists sc'',
    drain (length (Conn.writeQueue sc')) sc' w' = Done sc'' w' /\
    Conn.writeQueue sc'' = [] /\
    sent (Conn.conn sc'') = sent (Conn.conn sc) ++ Conn.writeQueue sc ++ [b; b].
Proof.
  intros Hl Hd Hr Hf Ho Hlen Hp. cbv zeta.
  assert (Ho1 : open_shim (Conn.set_writeQueue (Conn.writeQueue sc ++ [b]) sc))
    by (destruct Ho as (? & ? & ?); repeat split; assumption).
  assert (Ho2 : open_shim (Conn.set_writeQueue (Conn.writeQueue sc ++ [b; b]) sc))
    by (destruct Ho as (? & ? & ?); repeat split; assumption).
  split.
  - unfold Conn.Write.
    erewrite bind_Done by (apply (stream_decision_off Loss); exact Hl).
    cbv beta iota.
    erewrite bind_Done by (apply (stream_decision_on Duplication); eassumption).
    cbv beta iota.
    erewrite bind_Done by (apply enqueueWrite_open; [exact Ho|lia]).
    erewrite bind_Done by (apply (stream_decision_off Reordering); exact Hr).
    cbv beta iota.
    erewrite bind_Done by (apply simulateLatency_fixed; exact Hf).
    erewrite bind_Done
      by (apply enqueueWrite_open; [exact Ho1|cbn; rewrite length_app; cbn; lia]).
    cbn. rewrite <- app_assoc. reflexivity.
  - destruct (drain_all _ (slept (Latency cfg) (drawn (Conn.rand sc) (snd (rand_Float64 r)) w))
                _ Ho2 eq_refl) as (sc'' & Hdr & _ & Hq & Hc).
    exists sc''. split; [exact Hdr|]. split; [exact Hq|]. rewrite Hc. reflexivity.
Qed.

Lemma Write_spawns cfg sc b (w : World R) r :
  (LossRate cfg == 0)%Q -> (DuplicateRate cfg == 0)%Q -> (ReorderRate cfg == 1)%Q ->
  rands w !! Conn.rand sc = Some r ->
  Conn.Write cfg sc b w
  = Done (Conn.set_spawned (Conn.spawned sc ++ [b]) sc, (len b, None))
      (drawn (Conn.rand sc) (snd (rand_Float64 r)) w).
Proof.
  intros Hl Hd Hr Hp. unfold Conn.Write.
  erewrite bind_Done by (apply (stream_decision_off Loss); exact Hl).
  cbv beta iota.
  erewrite bind_Done by (apply (stream_decision_off Duplication); exact Hd).
  cbv beta iota. rewrite bind_ret_l.
  erewrite bind_Done by (apply (stream_decision_on Reordering); eassumption).
  reflexivity.
Qed.

(** X7: when only the reordering draw succeeds (rates 0, 0, 1), [Write]
    returns the length and nil at once in every state of the shim: it
    does not sleep, does not touch the queue (so it cannot block on a full
    queue), and leaves the payload to a new goroutine. *)
Theorem Write_reordered_returns_at_once (cfg : Config) (sc : Conn.simulatedConn)
    (b : list byte) (w : World R) (r : R) :
  (LossRate cfg == 0)%Q -> (DuplicateRate cfg == 0)%Q -> (ReorderRate cfg == 1)%Q ->
  rands w !! Conn.rand sc = Some r ->
  exists sc' w',
    Conn.Write cfg sc b w = Done (sc', (len b, None)) w' /\
    Conn.writeQueue sc' = Conn.writeQueue sc /\ Conn.conn sc' = Conn.conn sc /\
    Conn.spawned sc' = Conn.spawned sc ++ [b] /\
    clock w' = clock w.
Proof.
  intros Hl Hd Hr Hp. do 2 eexists.
  split; [apply Write_spawns; eassumption|]. repeat split.
Qed.

Lemma runSpawned_open cfg sc i data (w : World R) :
  fixed_latency cfg -> open_shim sc ->
  (length (Conn.writeQueue sc) < Conn.capacity)%nat ->
  Conn.spawned sc !! i = Some data ->
  Conn.runSpawned cfg sc i w
  = Done (Conn.set_writeQueue (Conn.writeQueue sc ++ [data])
            (Conn.set_spawned (delete i (Conn.spawned sc)) sc))
      (slept (Latency cfg) w).
Proof.
  intros Hf Ho Hlen Hs. unfold Conn.runSpawned. rewrite Hs.
  erewrite bind_Done by (apply simulateLatency_fixed; exact Hf).
  rewrite (enqueueWrite_open (Conn.set_spawned (delete i (Conn.spawned sc)) sc));
    [reflexivity|destruct Ho as (? & ? & ?); repeat split; assumption|exact Hlen].
Qed.

(** X8: two writes that are both reordered reach the queue in the order
    in which their goroutines run, not in the order of the calls: after
    [Write b1] and [Write b2], running the first goroutine first queues
    [b1; b2], running the second one first queues [b2; b1]. *)
Theorem reordered_writes_either_order (cfg : Config) (sc : Conn.simulatedConn)
    (b1 b2 : list byte) (w : World R) (r : R) :
  (LossRate cfg == 0)%Q -> (DuplicateRate cfg == 0)%Q -> (ReorderRate cfg == 1)%Q ->
  fixed_latency cfg -> open_shim sc -> Conn.spawned sc = [] ->
  (length (Conn.writeQueue sc) + 2 <= Conn.capacity)%nat ->
  rands w !! Conn.rand sc = Some r ->
  let two_writes_then (i j : nat) : M R Conn.simulatedConn :=
    x1 <- Conn.Write cfg sc b1 ;;
    x2 <- Conn.Write cfg (fst x1) b2 ;;
    s <- Conn.runSpawned cfg (fst x2) i ;;
    Conn.runSpawned cfg s j in
  (exists sc' w', two_writes_then 0%nat 0%nat w = Done sc' w' /\
     Conn.writeQueue sc' = Conn.writeQueue sc ++ [b1; b2] /\ Conn.spawned sc' = []) /\
  (exists sc' w', two_writes_then 1%nat 0%nat w = Done sc' w' /\
     Conn.writeQueue sc' = Conn.writeQueue sc ++ [b2; b1] /\ Conn.spawned sc' = []).
Proof.
  intros Hl Hd Hr Hf Ho Hs Hlen Hp. cbv zeta.
  pose proof Ho as (Hc & Hqc & Hcc).
  set (sc1 := Conn.set_spawned (Conn.spawned sc ++ [b1]) sc).
  set (sc2 := Conn.set_spawned (Conn.spawned sc1 ++ [b2]) sc1).
  assert (Hs2 : Conn.spawned sc2 = [b1; b2]) by (cbn; rewrite Hs; reflexivity).
  assert (Ho2 : open_shim sc2) by (repeat split; assumption).
  assert (Hstart : forall k : Conn.simulatedConn * (Z * option error) -> M R Conn.simulatedConn,
            bind (Conn.Write cfg sc b1)
              (fun x1 => bind (Conn.Write cfg (fst x1) b2) k) w
            = k (sc2, (len b2, None))
                (drawn (Conn.rand sc) (snd (rand_Float64 (snd (rand_Float64 r))))
                   (drawn (Conn.rand sc) (snd (rand_Float64 r)) w))).
  { intros k. erewrite bind_Done by (apply Write_spawns; eassumption).
    cbn [fst]. fold sc1.
    erewrite bind_Done
      by (apply Write_spawns; try assumption; apply (drawn_lookup _ _ _ _ Hp)).
    reflexivity. }
  split.
  - rewrite (Hstart (fun x2 => bind (Conn.runSpawned cfg (fst x2) 0%nat)
                                 (fun s => Conn.runSpawned cfg s 0%nat))).
    cbn [fst].
    erewrite bind_Done
      by (apply (runSpawned_open _ _ _ b1); [exact Hf|exact Ho2|cbn; lia|rewrite Hs2; reflexivity]).
    do 2 eexists. split.
    + apply (runSpawned_open _ _ _ b2);
        [exact Hf|repeat split; assumption|cbn; rewrite length_app; cbn; lia|].
      cbn. rewrite Hs. reflexivity.
    + cbn. rewrite Hs, <- app_assoc. split; reflexivity.
  - rewrite (Hstart (fun x2 => bind (Conn.runSpawned cfg (fst x2) 1%nat)
                                 (fun s => Conn.runSpawned cfg s 0%nat))).
    cbn [fst].
    erewrite bind_Done
      by (apply (runSpawned_open _ _ _ b2); [exact Hf|exact Ho2|cbn; lia|rewrite Hs2; reflexivity]).
    do 2 eexists. split.
    + apply (runSpawned_open _ _ _ b1);
        [exact Hf|repeat split; assumption|cbn; rewrite length_app; cbn; lia|].
      cbn. rewrite Hs. reflexivity.
    + cbn. rewrite Hs, <- app_assoc. split; reflexivity.
Qed.

End StreamWrites.

Lemma Write_duplicates_witness :
  let cfg := NewConfig [WithDuplicateRate 1; WithLatency 5] in
  let sc := Conn.mk (mkNetConn [] false) 0%nat [] [hello] false false false [] in
  let w : World Z := mkWorld [rand_New 42] 0 [] [] in
  exists w',
    Conn.Write cfg sc ["007"]%byte w
    = Done (Conn.set_writeQueue [hello; ["007"]%byte; ["007"]%byte] sc, (1, None)) w' /\
    clock w' = 5 /\
    exists sc'', drain 3 (Conn.set_writeQueue [hello; ["007"]%byte; ["007"]%byte] sc) w'
                 = Done sc'' w' /\
                 sent (Conn.conn sc'') = [hello; ["007"]%byte; ["007"]%byte].
Proof.
  cbv zeta.
  destruct (Write_duplicates (NewConfig [WithDuplicateRate 1; WithLatency 5])
    (Conn.mk (mkNetConn [] false) 0%nat [] [hello] false false false []) ["007"]%byte
    (mkWorld [rand_New 42] 0 [] []) (rand_New 42)
    ltac:(reflexivity) ltac:(reflexivity) ltac:(reflexivity)
    ltac:(repeat split; discriminate) ltac:(repeat split)
    ltac:(unfold Conn.capacity; cbn; lia) eq_refl) as (Hw & sc'' & Hd & _ & Hs).
  eexists. split; [exact Hw|]. split; [reflexivity|].
  exists sc''. split; [exact Hd|exact Hs].
Defined.

Lemma Write_reordered_returns_at_once_witness :
  let cfg := NewConfig [WithReorderRate 1; WithLatency 5] in
  let sc := Conn.mk (mkNetConn [] false) 0%nat [] (replicate 100 hello) false false false [] in
  let w : World Z := mkWorld [rand_New 42] 0 [] [] in
  exists sc' w',
    Conn.Write cfg sc hello w = Done (sc', (14, None)) w' /\
    Conn.writeQueue sc' = replicate 100 hello /\ Conn.spawned sc' = [hello] /\ clock w' = 0.
Proof.
  cbv zeta.
  destruct (Write_reordered_returns_at_once (NewConfig [WithReorderRate 1; WithLatency 5])
    (Conn.mk (mkNetConn [] false) 0%nat [] (replicate 100 hello) false false false []) hello
    (mkWorld [rand_New 42] 0 [] []) (rand_New 42)
    ltac:(reflexivity) ltac:(reflexivity) ltac:(reflexivity) eq_refl)
    as (sc' & w' & Hw & Hq & _ & Hs & Hc).
  exists sc', w'. repeat split; assumption.
Defined.

Lemma reordered_writes_either_order_witness :
  let cfg := NewConfig [WithReorderRate 1] in
  let sc := Conn.mk (mkNetConn [] false) 0%nat [] [] false false false [] in
  let w : World Z := mkWorld [rand_New 42] 0 [] [] in
  let two_writes_then (i j : nat) : M Z Conn.simulatedConn :=
    x1 <- Conn.Write cfg sc ["001"]%byte ;;
    x2 <- Conn.Write cfg (fst x1) ["002"]%byte ;;
    s <- Conn.runSpawned cfg (fst x2) i ;;
    Conn.runSpawned cfg s j in
  (exists sc' w', two_writes_then 0%nat 0%nat w = Done sc' w' /\
     Conn.writeQueue sc' = [["001"]%byte; ["002"]%byte]) /\
  (exists sc' w', two_writes_then 1%nat 0%nat w = Done sc' w' /\
     Conn.writeQueue sc' = [["002"]%byte; ["001"]%byte]).
Proof.
  cbv zeta.
  destruct (reordered_writes_either_order (NewConfig [WithReorderRate 1])
    (Conn.mk (mkNetConn [] false) 0%nat [] [] false false false [])
    ["001"]%byte ["002"]%byte (mkWorld [rand_New 42] 0 [] []) (rand_New 42)
    ltac:(reflexivity) ltac:(reflexivity) ltac:(reflexivity)
    ltac:(repeat split; discriminate) ltac:(repeat split) eq_refl
    ltac:(unfold Conn.capacity; cbn; lia) eq_refl)
    as ((s1 & w1 & H1 & Q1 & _) & (s2 & w2 & H2 & Q2 & _)).
  split; [exists s1, w1|exists s2, w2]; split; assumption.
Defined.


(** ** Closing the stream shim *)

Section StreamClose.
Context {R : Type} `{!RandSource R}.

Lemma processWriteQueue_closed fuel : forall sc (w : World R),
  closed_shim sc -> (length (Conn.writeQueue sc) < fuel)%nat ->
  exists sc2 w2,
    processWriteQueue fuel sc w = Done (sc2, true) w2 /\
    sent (Conn.conn sc2) = sent (Conn.conn sc).
Proof.
  induction fuel as [|fuel IH]; intros sc w Hcl Hlen; [lia|].
  pose proof Hcl as (Hc & Hq & Hcc).
  cbn [processWriteQueue]. unfold Conn.processWriteQueue_step. rewrite Hc, Hq. cbn [orb].
  unfold bind.
  assert (Hpick : exists first w1, pick w = Done first w1).
  { unfold pick. destruct (picks w); do 2 eexists; reflexivity. }
  destruct Hpick as (first & w1 & Ep). rewrite Ep.
  destruct first; [|do 2 eexists; split; reflexivity].
  destruct (Conn.writeQueue sc) as [|d rest] eqn:Eq.
  - do 2 eexists. split; reflexivity.
  - unfold netConn_Write. rewrite Hcc. cbn [fst snd ret].
    destruct (IH (Conn.set_conn (Conn.conn sc) (Conn.set_writeQueue rest sc)) w1)
      as (sc2 & w2 & Hrun & Hs); [repeat split; assumption|cbn in *; lia|].
    exists sc2, w2. split; [exact Hrun|exact Hs].
Qed.

(** X10: [Close] on an open stream shim closes the real connection at
    once and leaves the queue as it is; afterwards the draining task
    returns within one iteration per queued payload plus one, whatever
    the runtime chooses, and the real connection has sent nothing more:
    payloads whose [Write] had returned success but that were still
    queued are never transmitted. *)
Theorem Close_drops_queued_writes (sc : Conn.simulatedConn) (w : World R) :
  open_shim sc -> Conn.closeOnce sc = false ->
  exists sc1,
    Conn.Close sc w = Done (sc1, None) w /\
    Conn.writeQueue sc1 = Conn.writeQueue sc /\
    conn_closed (Conn.conn sc1) = true /\
    forall fuel (w1 : World R), (length (Conn.writeQueue sc) < fuel)%nat ->
      exists sc2 w2,
        processWriteQueue fuel sc1 w1 = Done (sc2, true) w2 /\
        sent (Conn.conn sc2) = sent (Conn.conn sc).
Proof.
  intros (Hc & Hq & Hcc) Ho.
  eexists. split.
  { unfold Conn.Close. rewrite Ho, Hc, Hq. unfold netConn_Close. cbn. rewrite Hcc.
    reflexivity. }
  split; [reflexivity|]. split; [reflexivity|].
  intros fuel w1 Hlen.
  destruct (processWriteQueue_closed fuel
              (Conn.set_conn (mkNetConn (sent (Conn.conn sc)) true)
                 (Conn.mk (Conn.conn sc) (Conn.rand sc) (Conn.readBuf sc) (Conn.writeQueue sc)
                    true true true (Conn.spawned sc))) w1)
    as (sc2 & w2 & Hrun & Hs); [repeat split|exact Hlen|].
  exists sc2, w2. split; [exact Hrun|exact Hs].
Qed.

(** X11: a [Write] on a closed stream shim that is not lost reaches a
    [select] whose two cases are ready, the send on the closed queue and
    the receive on the closed signal: when the runtime takes the send the
    call panics, when it takes the signal the call returns the length and
    nil although nothing was queued. *)
Theorem Write_after_Close (cfg : Config) (sc : Conn.simulatedConn) (b : list byte)
    (w : World R) :
  transparent cfg -> Conn.closed sc = true -> Conn.writeQueue_closed sc = true ->
  (hd true (picks w) = true -> Conn.Write cfg sc b w = Panic "send on closed channel") /\
  (hd true (picks w) = false ->
     Conn.Write cfg sc b w
     = Done (sc, (len b, None)) (mkWorld (rands w) (clock w) (tl (picks w)) (dials w))).
Proof.
  intros (Hl & Hd & Hr & Hlat & Hj & Hbw) Hc Hq.
  assert (E : Conn.Write cfg sc b w
              = bind (Conn.enqueueWrite sc b) (fun sc' => ret (sc', (len b, None))) w).
  { unfold Conn.Write, Conn.simulateLoss, Conn.simulateDuplication,
      Conn.simulateReordering, Conn.simulateLatency, Conn.calculateLatency.
    rewrite (Qltb_0_zero _ Hl), (Qltb_0_zero _ Hd), (Qltb_0_zero _ Hr), Hlat, Hj, Hbw.
    reflexivity. }
  rewrite E. unfold Conn.enqueueWrite, bind, pick. rewrite Hc, Hq. cbn [orb].
  destruct (picks w) as [|[|] rest]; cbn; split; intros; try discriminate; reflexivity.
Qed.
End StreamClose.

Lemma Close_drops_queued_writes_witness :
  let sc := Conn.mk (mkNetConn [] false) 0%nat [] [hello] false false false [] in
  let w : World Z := mkWorld [rand_New 42] 0 [false; true; false] [] in
  exists sc1 sc2 w2,
    Conn.Close sc w = Done (sc1, None) w /\
    processWriteQueue 2 sc1 w = Done (sc2, true) w2 /\
    sent (Conn.conn sc2) = [].
Proof.
  cbv zeta.
  destruct (Close_drops_queued_writes
    (Conn.mk (mkNetConn [] false) 0%nat [] [hello] false false false [])
    (mkWorld [rand_New 42] 0 [false; true; false] []) ltac:(repeat split) eq_refl)
    as (sc1 & Hcl & _ & _ & Hrun).
  destruct (Hrun 2%nat (mkWorld [rand_New 42] 0 [false; true; false] []) ltac:(cbn; lia))
    as (sc2 & w2 & H2 & Hs).
  exists sc1, sc2, w2. repeat split; assumption.
Defined.

Lemma Write_after_Close_witness :
  let sc := Conn.mk (mkNetConn [] true) 0%nat [] [] true true true [] in
  Conn.Write (NewConfig []) sc hello (mkWorld [rand_New 42] 0 [] [])
    = Panic "send on closed channel" /\
  Conn.Write (NewConfig []) sc hello (mkWorld [rand_New 42] 0 [false] [])
    = Done (sc, (14, None)) (mkWorld [rand_New 42] 0 [] []).
Proof.
  cbv zeta.
  assert (Ht : transparent (NewConfig [])) by (repeat split; reflexivity).
  split.
  - apply (proj1 (Write_after_Close (NewConfig [])
      (Conn.mk (mkNetConn [] true) 0%nat [] [] true true true []) hello
      (mkWorld [rand_New 42] 0 [] []) Ht eq_refl eq_refl)). reflexivity.
  - apply (proj2 (Write_after_Close (NewConfig [])
      (Conn.mk (mkNetConn [] true) 0%nat [] [] true true true []) hello
      (mkWorld [rand_New 42] 0 [false] []) Ht eq_refl eq_refl)). reflexivity.
Defined.

(** ** The read path of the stream shim *)

Section StreamReads.
Context {R : Type} `{!RandSource R}.

Lemma simulateLatency_runs cfg sc n (w : World R) r :
  rands w !! Conn.rand sc = Some r ->
  exists w', Conn.simulateLatency cfg sc n w = Done tt w'.
Proof.
  intros Hr. unfold Conn.simulateLatency.
  destruct (delay_gen cfg sc (PacketConn.newSimulatedPacketConn
              (mkNetPacketConn "" [] false) (Conn.rand sc)) n w r eq_refl Hr)
    as [[d Hd] _].
  erewrite bind_Done by exact Hd.
  destruct (0 <? d); eexists; reflexivity.
Qed.

(** X12: with loss and duplication rates 0 and nothing retained, [Read]
    hands the caller exactly the bytes the real connection delivered,
    their count and its error, and retains nothing, whatever the
    reordering rate: the swap needs a retained buffer, and only a
    successful duplication draw ever creates one. *)
Theorem Read_without_duplication (cfg : Config) (sc : Conn.simulatedConn)
    (b : list byte) (resp : list byte * option error) (w : World R) (r : R) :
  (LossRate cfg == 0)%Q -> (DuplicateRate cfg == 0)%Q ->
  Conn.readBuf sc = [] -> rands w !! Conn.rand sc = Some r ->
  exists w',
    Conn.Read cfg sc b resp w
    = Done (sc, (fst (copy b (take (length b) (fst resp))),
                 len (take (length b) (fst resp)), snd resp)) w'.
Proof.
  intros Hl Hd Hb Hr. unfold Conn.Read.
  erewrite bind_Done by (apply (stream_decision_off Loss); exact Hl).
  cbv beta iota zeta.
  destruct (take (length b) (fst resp)) as [|x got] eqn:E.
  - exists w. cbn -[copy]. rewrite copy_nil. reflexivity.
  - replace (0 <? len (x :: got)) with true
      by (symmetry; apply Z.ltb_lt; unfold len; cbn; lia).
    cbv iota.
    erewrite bind_Done by (apply (stream_decision_off Duplication); exact Hd).
    cbv beta iota.
    erewrite bind_Done by (apply (stream_decision_gen Reordering); exact Hr).
    rewrite Hb. change (0 <? len (@nil byte)) with false. rewrite andb_false_r.
    destruct (simulateLatency_runs cfg sc (len (x :: got))
                (drawn (Conn.rand sc) (snd (gen_decide (rate_of Reordering cfg) r)) w) _
                (drawn_lookup _ _ _ _ Hr)) as [w' Hw'].
    exists w'. erewrite bind_Done by exact Hw'. reflexivity.
Qed.
End StreamReads.

Lemma Read_without_duplication_witness :
  let cfg := NewConfig [WithReorderRate 1; WithJitter 50; WithLatency 3] in
  let sc := Conn.mk (mkNetConn [] false) 0%nat [] [] false false false [] in
  exists w',
    Conn.Read cfg sc ["000"; "000"; "000"]%byte (["001"; "002"]%byte, Some EOF)
      (mkWorld [rand_New 42] 0 [] [])
    = Done (sc, (["001"; "002"; "000"]%byte, 2, Some EOF)) w'.
Proof.
  cbv zeta.
  exact (Read_without_duplication (NewConfig [WithReorderRate 1; WithJitter 50; WithLatency 3])
    (Conn.mk (mkNetConn [] false) 0%nat [] [] false false false [])
    ["000"; "000"; "000"]%byte (["001"; "002"]%byte, Some EOF)
    (mkWorld [rand_New 42] 0 [] []) (rand_New 42)
    ltac:(reflexivity) ltac:(reflexivity) eq_refl eq_refl).
Defined.

(** ** The inbound path of the datagram shim *)

Lemma take_copy_zeros (size : nat) (d : list byte) :
  take (Z.to_nat (snd (copy (replicate size "000"%byte) d)))
    (fst (copy (replicate size "000"%byte) d)) = take size d.
Proof.
  unfold copy. cbn [fst snd]. rewrite length_replicate, Nat2Z.id.
  destruct (le_lt_dec (length d) size) as [Hle|Hgt].
  - rewrite Nat.min_r by exact Hle. rewrite (take_ge d) by exact Hle.
    apply take_app_length.
  - rewrite Nat.min_l by lia. apply take_app_length'.
    rewrite length_take. lia.
Qed.

Section Inbound.
Context {R : Type} `{!RandSource R}.

Lemma transparent_fixed cfg : transparent cfg -> fixed_latency cfg /\ Latency cfg = 0.
Proof. intros (_ & _ & _ & Hl & Hj & Hb). repeat split; try assumption. lia. Qed.

Lemma set_readQueue_same spc :
  PacketConn.set_readQueue (PacketConn.readQueue spc) spc = spc.
Proof. destruct spc; reflexivity. Qed.

Lemma enqueuePacket_plain cfg spc pkt (w : World R) :
  transparent cfg -> open_dgram spc ->
  (length (PacketConn.readQueue spc) < PacketConn.capacity)%nat ->
  PacketConn.enqueuePacket cfg spc pkt w
  = Done (PacketConn.set_readQueue (PacketConn.readQueue spc ++ [pkt]) spc) w.
Proof.
  intros Ht Ho Hlen. pose proof Ht as (Hl & Hd & Hr & _).
  destruct (transparent_fixed _ Ht) as [Hf H0].
  unfold PacketConn.enqueuePacket.
  erewrite bind_Done by (apply (datagram_decision_off Loss); exact Hl).
  cbv beta iota.
  erewrite bind_Done by (apply (datagram_decision_off Duplication); exact Hd).
  cbv beta iota. rewrite bind_ret_l.
  erewrite bind_Done by (apply (datagram_decision_off Reordering); exact Hr).
  cbv beta iota.
  rewrite (deliverPacket_open _ _ _ _ Hf Ho Hlen), H0, slept_0. reflexivity.
Qed.

Lemma readLoop_plain cfg pkts : forall spc (w : World R),
  transparent cfg -> open_dgram spc ->
  (length (PacketConn.readQueue spc) + length pkts <= PacketConn.capacity)%nat ->
  readLoop cfg spc pkts w
  = Done (PacketConn.set_readQueue (PacketConn.readQueue spc ++ map received pkts) spc) w.
Proof.
  induction pkts as [|pkt pkts IH]; intros spc w Ht Ho Hlen.
  - cbn. rewrite app_nil_r, set_readQueue_same. reflexivity.
  - cbn [readLoop length] in *. unfold PacketConn.readLoop_step.
    rewrite Ho. unfold PacketConn.processIncomingPacket.
    erewrite bind_Done;
      [|erewrite bind_Done by (apply enqueuePacket_plain; [exact Ht|exact Ho|lia]);
        reflexivity].
    cbn [fst snd]. rewrite IH; [|exact Ht|exact Ho|cbn; rewrite length_app; cbn; lia].
    cbn. rewrite <- app_assoc. reflexivity.
Qed.

Lemma ReadFrom_open spc p pkt rest (w : World R) :
  open_dgram spc -> PacketConn.readQueue spc = pkt :: rest ->
  PacketConn.ReadFrom spc p w
  = Done (PacketConn.set_readQueue rest spc,
          (fst (copy p (data pkt)), snd (copy p (data pkt)), Some (addr pkt), None)) w.
Proof.
  intros Ho Hq. unfold PacketConn.ReadFrom. rewrite Hq, Ho. reflexivity.
Qed.

Lemma readFroms_all size q : forall spc (w : World R),
  open_dgram spc -> PacketConn.readQueue spc = q ->
  readFroms spc size (length q) w
  = Done (PacketConn.set_readQueue [] spc,
          map (fun pkt => (take size (data pkt), Some (addr pkt))) q) w.
Proof.
  induction q as [|pkt q IH]; intros spc w Ho Hq.
  - cbn. rewrite <- Hq, set_readQueue_same. reflexivity.
  - cbn [length readFroms].
    erewrite bind_Done by (apply ReadFrom_open; eassumption).
    cbn [fst snd].
    erewrite bind_Done by (apply IH; [exact Ho|reflexivity]).
    cbn [fst snd map]. rewrite take_copy_zeros. reflexivity.
Qed.

(** X13: under a profile without effects, the packets the real socket
    delivers (as many as the queue has room for) are queued in arrival
    order, each cut to the 65535 bytes of the buffer of [readLoop], and
    nothing is drawn or slept; the same number of [ReadFrom] calls with
    buffers of [size] bytes then return, in that order, the first [size]
    bytes of each packet with its source address, and empty the queue:
    what exceeds the caller's buffer is dropped with the packet. *)
Theorem inbound_packets_in_order (cfg : Config) (spc : PacketConn.simulatedPacketConn)
    (pkts : list packet) (size : nat) (w : World R) :
  transparent cfg -> open_dgram spc -> PacketConn.readQueue spc = [] ->
  (length pkts <= PacketConn.capacity)%nat ->
  exists spc1,
    readLoop cfg spc pkts w = Done spc1 w /\
    PacketConn.readQueue spc1 = map received pkts /\
    readFroms spc1 size (length pkts) w
    = Done (spc, map (fun pkt => (take size (data (received pkt)), Some (addr pkt))) pkts) w.
Proof.
  intros Ht Ho Hq Hlen.
  exists (PacketConn.set_readQueue (map received pkts) spc).
  split; [rewrite readLoop_plain by (try assumption; rewrite Hq; cbn; lia);
          rewrite Hq; reflexivity|].
  split; [reflexivity|].
  pose proof (readFroms_all size (map received pkts)
                (PacketConn.set_readQueue (map received pkts) spc) w Ho eq_refl) as Hr.
  rewrite length_map in Hr. rewrite Hr. f_equal. f_equal.
  - destruct spc. cbn in Hq |- *. subst. reflexivity.
  - rewrite map_map. reflexivity.
Qed.

(** X14: with a loss rate of 1 the datagram shim drops in both
    directions: [WriteTo] to an address outside the partition set
    returns the length and nil and leaves the shim as it was, and a
    packet the real socket delivers leaves the shim as it was, so
    [ReadFrom] never sees it. *)
Theorem datagram_loss_drops (cfg : Config) (spc : PacketConn.simulatedPacketConn)
    (p : list byte) (a : Addr) (pkt : packet) (w : World R) (r : R) :
  (LossRate cfg == 1)%Q -> rands w !! PacketConn.rand spc = Some r ->
  isPartitioned cfg a = false -> open_dgram spc ->
  let w' := drawn (PacketConn.rand spc) (snd (rand_Float64 r)) w in
  PacketConn.WriteTo cfg spc p a w = Done (spc, (len p, None)) w' /\
  PacketConn.readLoop_step cfg spc (inl pkt) w = Done (spc, true) w'.
Proof.
  intros Hl Hr Hp Ho. cbv zeta.
  assert (He : forall q, PacketConn.enqueuePacket cfg spc q w
                         = Done spc (drawn (PacketConn.rand spc) (snd (rand_Float64 r)) w)).
  { intros q. unfold PacketConn.enqueuePacket.
    erewrite bind_Done by (apply (datagram_decision_on Loss); eassumption).
    reflexivity. }
  split.
  - unfold PacketConn.WriteTo. rewrite Hp. erewrite bind_Done by apply He. reflexivity.
  - unfold PacketConn.readLoop_step, PacketConn.processIncomingPacket. rewrite Ho.
    erewrite bind_Done by apply He. reflexivity.
Qed.
End Inbound.

Lemma inbound_packets_in_order_witness :
  let spc := PacketConn.newSimulatedPacketConn (mkNetPacketConn "127.0.0.1:8080" [] false) 0%nat in
  let w : World Z := mkWorld [rand_New 42] 0 [] [] in
  let pkts := [mkPacket hello "10.0.0.2:53"; mkPacket ["001"; "002"]%byte "10.0.0.3:53"] in
  exists spc1,
    readLoop (NewConfig []) spc pkts w = Done spc1 w /\
    readFroms spc1 4 2 w
    = Done (spc, [(take 4 hello, Some "10.0.0.2:53"); (["001"; "002"]%byte, Some "10.0.0.3:53")]) w.
Proof.
  cbv zeta.
  destruct (inbound_packets_in_order (NewConfig [])
    (PacketConn.newSimulatedPacketConn (mkNetPacketConn "127.0.0.1:8080" [] false) 0%nat)
    [mkPacket hello "10.0.0.2:53"; mkPacket ["001"; "002"]%byte "10.0.0.3:53"] 4%nat
    (mkWorld [rand_New 42] 0 [] [])
    ltac:(repeat split; reflexivity) eq_refl eq_refl
    ltac:(unfold PacketConn.capacity; cbn; lia)) as (spc1 & H1 & _ & H3).
  exists spc1. split; [exact H1|exact H3].
Defined.

Lemma datagram_loss_drops_witness :
  let cfg := NewConfig [WithLossRate 1] in
  let spc := PacketConn.newSimulatedPacketConn (mkNetPacketConn "127.0.0.1:8080" [] false) 0%nat in
  let w : World Z := mkWorld [rand_New 42] 0 [] [] in
  exists w',
    PacketConn.WriteTo cfg spc hello "127.0.0.1:8081" w = Done (spc, (14, None)) w' /\
    PacketConn.readLoop_step cfg spc (inl (mkPacket hello "10.0.0.2:53")) w
      = Done (spc, true) w'.
Proof.
  cbv zeta. eexists.
  exact (datagram_loss_drops (NewConfig [WithLossRate 1])
    (PacketConn.newSimulatedPacketConn (mkNetPacketConn "127.0.0.1:8080" [] false) 0%nat)
    hello "127.0.0.1:8081" (mkPacket hello "10.0.0.2:53")
    (mkWorld [rand_New 42] 0 [] []) (rand_New 42)
    ltac:(reflexivity) eq_refl eq_refl eq_refl).
Defined.

(** ** Duplication, reordering and closing on the datagram shim *)

Section DatagramEffects.
Context {R : Type} `{!RandSource R}.

(** X15: when only the duplication draw succeeds (rates 0, 1, 0),
    [WriteTo] places the packet twice on the read queue and returns only
    after sleeping the latency twice, once per placement: the caller is
    held for twice the configured delay. *)
Theorem WriteTo_duplicates (cfg : Config) (spc : PacketConn.simulatedPacketConn)
    (p : list byte) (a : Addr) (w : World R) (r : R) :
  (LossRate cfg == 0)%Q -> (DuplicateRate cfg == 1)%Q -> (ReorderRate cfg == 0)%Q ->
  fixed_latency cfg -> isPartitioned cfg a = false -> open_dgram spc ->
  (length (PacketConn.readQueue spc) + 2 <= PacketConn.capacity)%nat ->
  rands w !! PacketConn.rand spc = Some r ->
  PacketConn.WriteTo cfg spc p a w
  = Done (PacketConn.set_readQueue
            (PacketConn.readQueue spc ++ [mkPacket p a; mkPacket p a]) spc, (len p, None))
      (slept (2 * Latency cfg) (drawn (PacketConn.rand spc) (snd (rand_Float64 r)) w)).
Proof.
  intros Hl Hd Hr Hf Hp Ho Hlen Hrand.
  unfold PacketConn.WriteTo. rewrite Hp. unfold PacketConn.enqueuePacket.
  erewrite bind_Done;
    [|erewrite bind_Done by (apply (datagram_decision_off Loss); exact Hl);
      cbv beta iota;
      erewrite bind_Done by (apply (datagram_decision_on Duplication); eassumption);
      cbv beta iota;
      erewrite bind_Done by (apply deliverPacket_open; [exact Hf|exact Ho|lia]);
      erewrite bind_Done by (apply (datagram_decision_off Reordering); exact Hr);
      cbv beta iota;
      apply deliverPacket_open; [exact Hf|exact Ho|cbn; rewrite length_app; cbn; lia]].
  cbn. rewrite <- app_assoc, slept_slept.
  replace (Latency cfg + Latency cfg) with (2 * Latency cfg) by lia. reflexivity.
Qed.

(** X16: when only the reordering draw succeeds (rates 0, 0, 1),
    [WriteTo] returns at once in every state of the shim, without
    sleeping and without touching the read queue, and leaves the packet
    to a new goroutine; when that goroutine runs on an open shim with
    room, it sleeps the latency twice (once itself, once in
    [deliverPacket]) and then queues the packet. *)
Theorem WriteTo_reordered (cfg : Config) (spc : PacketConn.simulatedPacketConn)
    (p : list byte) (a : Addr) (w : World R) (r : R) :
  (LossRate cfg == 0)%Q -> (DuplicateRate cfg == 0)%Q -> (ReorderRate cfg == 1)%Q ->
  fixed_latency cfg -> isPartitioned cfg a = false ->
  rands w !! PacketConn.rand spc = Some r ->
  let spc1 := PacketConn.set_spawned (PacketConn.spawned spc ++ [mkPacket p a]) spc in
  let w1 := drawn (PacketConn.rand spc) (snd (rand_Float64 r)) w in
  PacketConn.WriteTo cfg spc p a w = Done (spc1, (len p, None)) w1 /\
  clock w1 = clock w /\
  (open_dgram spc ->
   (length (PacketConn.readQueue spc) < PacketConn.capacity)%nat ->
   PacketConn.runSpawned cfg spc1 (length (PacketConn.spawned spc)) w1
   = Done (PacketConn.set_readQueue (PacketConn.readQueue spc ++ [mkPacket p a]) spc)
       (slept (2 * Latency cfg) w1)).
Proof.
  intros Hl Hd Hr Hf Hp Hrand. cbv zeta. split; [|split; [reflexivity|]].
  - unfold PacketConn.WriteTo. rewrite Hp. unfold PacketConn.enqueuePacket.
    erewrite bind_Done;
      [|erewrite bind_Done by (apply (datagram_decision_off Loss); exact Hl);
        cbv beta iota;
        erewrite bind_Done by (apply (datagram_decision_off Duplication); exact Hd);
        cbv beta iota; rewrite bind_ret_l;
        erewrite bind_Done by (apply (datagram_decision_on Reordering); eassumption);
        reflexivity].
    reflexivity.
  - intros Ho Hlen. pose proof Hf as (_ & _ & H0).
    unfold PacketConn.runSpawned. cbn [PacketConn.spawned PacketConn.set_spawned].
    rewrite lookup_app_r, Nat.sub_diag by lia. cbn [lookup list_lookup].
    erewrite bind_Done by (apply packet_simulateLatency_fixed; exact Hf).
    erewrite bind_Done by (apply Sleep_slept; exact H0).
    rewrite deliverPacket_open; [|exact Hf|exact Ho|exact Hlen].
    cbn. rewrite slept_slept.
    replace (Latency cfg + Latency cfg) with (2 * Latency cfg) by lia.
    rewrite delete_middle, app_nil_r. destruct spc; reflexivity.
Qed.

(** X17: [Close] on an open datagram shim releases what waits on it: a
    [ReadFrom] on an empty queue, blocked before, returns 0 and
    [net.ErrClosed]; the outbound loop, blocked on its empty queue,
    returns, and so does the inbound loop at its next iteration; a
    delivery blocked on a full read queue returns and drops its packet. *)
Theorem Close_releases_datagram_tasks (cfg : Config) (spc : PacketConn.simulatedPacketConn)
    (p : list byte) (pkt : packet) (resp : packet + error) (w : World R) :
  open_dgram spc -> pconn_closed (PacketConn.conn spc) = false -> fixed_latency cfg ->
  exists spc1,
    PacketConn.Close spc w = Done (spc1, None) w /\
    (PacketConn.readQueue spc = [] ->
       PacketConn.ReadFrom spc p w = Blocked /\
       PacketConn.ReadFrom spc1 p w = Done (spc1, (p, 0, None, Some ErrClosed)) w) /\
    (PacketConn.writeQueue spc = [] ->
       PacketConn.writeLoop_step spc w = Blocked /\
       PacketConn.writeLoop_step spc1 w = Done (spc1, false) w) /\
    PacketConn.readLoop_step cfg spc1 resp w = Done (spc1, false) w /\
    (length (PacketConn.readQueue spc) = PacketConn.capacity ->
       PacketConn.deliverPacket cfg spc pkt w = Blocked /\
       PacketConn.deliverPacket cfg spc1 pkt w = Done spc1 (slept (Latency cfg) w)).
Proof.
  intros Ho Hc Hf. pose proof Hf as (_ & _ & H0).
  eexists. split.
  { unfold PacketConn.Close, netPacketConn_Close. rewrite Ho, Hc. reflexivity. }
  split; [|split; [|split]].
  - intros Hq. unfold PacketConn.ReadFrom. cbn. rewrite Hq, Ho. split; reflexivity.
  - intros Hq. unfold PacketConn.writeLoop_step. cbn. rewrite Hq, Ho. split; reflexivity.
  - reflexivity.
  - intros Hfull. unfold PacketConn.deliverPacket.
    split.
    + erewrite bind_Done by (apply packet_simulateLatency_fixed; exact Hf).
      erewrite bind_Done by (apply Sleep_slept; exact H0).
      rewrite Hfull, Ho. reflexivity.
    + erewrite bind_Done by (apply packet_simulateLatency_fixed; exact Hf).
      erewrite bind_Done by (apply Sleep_slept; exact H0).
      cbn. rewrite Hfull. reflexivity.
Qed.

Lemma writeLoop_idle spc (w w' : World R) spc' go :
  PacketConn.writeQueue spc = [] ->
  PacketConn.writeLoop_step spc w = Done (spc', go) w' -> spc' = spc.
Proof.
  intros Hq. unfold PacketConn.writeLoop_step. rewrite Hq. cbn.
  destruct (PacketConn.closed spc); [|discriminate].
  intros E. inversion E. reflexivity.
Qed.

Lemma dgram_exec_frame cfg spc op (w w' : World R) spc' :
  PacketConn.writeQueue spc = [] ->
  dgram_exec cfg spc op w = Done spc' w' ->
  PacketConn.writeQueue spc' = [] /\
  psent (PacketConn.conn spc') = psent (PacketConn.conn spc).
Proof.
  intros Hq E. destruct op as [p a|p| |resp| |i]; cbn [dgram_exec] in E.
  - apply bind_inv in E as ([s x] & w1 & E1 & E). apply ret_inv in E as [<- _].
    unfold PacketConn.WriteTo in E1. destruct (isPartitioned cfg a).
    + apply ret_inv in E1 as [E1 _]. inversion E1; subst. auto.
    + apply bind_inv in E1 as (s1 & w2 & E2 & E1). apply ret_inv in E1 as [E1 _].
      inversion E1; subst. apply enqueuePacket_frame in E2 as [H1 H2].
      cbn. rewrite H1, H2. auto.
  - apply bind_inv in E as ([s x] & w1 & E1 & E). apply ret_inv in E as [<- _].
    unfold PacketConn.ReadFrom in E1.
    destruct (PacketConn.readQueue spc) as [|pkt rest], (PacketConn.closed spc);
      cbn in E1; try discriminate.
    + inversion E1; subst. auto.
    + unfold bind, pick in E1. destruct (picks w) as [|[|] ?];
        inversion E1; subst; auto.
    + inversion E1; subst. auto.
  - apply bind_inv in E as ([s x] & w1 & E1 & E). apply ret_inv in E as [<- _].
    unfold PacketConn.Close in E1.
    apply bind_inv in E1 as (c & w2 & _ & E1). apply ret_inv in E1 as [E1 _].
    inversion E1; subst. cbn. split; [exact Hq|].
    unfold netPacketConn_Close. destruct (pconn_closed _); reflexivity.
  - apply bind_inv in E as ([s x] & w1 & E1 & E). apply ret_inv in E as [<- _].
    unfold PacketConn.readLoop_step in E1. destruct (PacketConn.closed spc).
    + apply ret_inv in E1 as [E1 _]. inversion E1; subst. auto.
    + destruct resp as [pkt|e].
      * apply bind_inv in E1 as (s1 & w2 & E2 & E1). apply ret_inv in E1 as [E1 _].
        inversion E1; subst. apply enqueuePacket_frame in E2 as [H1 H2].
        cbn. rewrite H1, H2. auto.
      * apply ret_inv in E1 as [E1 _]. inversion E1; subst. auto.
  - apply bind_inv in E as ([s x] & w1 & E1 & E). apply ret_inv in E as [<- _].
    apply writeLoop_idle in E1; [|exact Hq]. cbn. subst. auto.
  - unfold PacketConn.runSpawned in E.
    destruct (PacketConn.spawned spc !! i) as [pkt|].
    + apply bind_inv in E as (d & w1 & _ & E). apply bind_inv in E as (u & w2 & _ & E).
      apply deliverPacket_frame in E as (H1 & H2 & _). cbn in H1, H2.
      rewrite H1, H2. auto.
    + apply ret_inv in E as [<- _]. auto.
Qed.

(** X18: nothing a datagram shim does puts a packet on its write queue:
    through every run of calls ([WriteTo], [ReadFrom], [Close]), loop
    iterations and goroutines, under every profile, the write queue made
    empty by [newSimulatedPacketConn] stays empty and the real socket
    sends no packet. *)
Theorem datagram_shim_never_transmits (cfg : Config) (ops : list dgram_op)
    (spc : PacketConn.simulatedPacketConn) (w w' : World R)
    (spc' : PacketConn.simulatedPacketConn) :
  PacketConn.writeQueue spc = [] ->
  dgram_run cfg spc ops w = Done spc' w' ->
  PacketConn.writeQueue spc' = [] /\
  psent (PacketConn.conn spc') = psent (PacketConn.conn spc).
Proof.
  revert spc w. induction ops as [|op ops IH]; intros spc w Hq E.
  - apply ret_inv in E as [<- _]. auto.
  - cbn [dgram_run] in E. apply bind_inv in E as (spc1 & w1 & E1 & E).
    apply dgram_exec_frame in E1 as [Hq1 Hs1]; [|exact Hq].
    apply IH in E as [Hq2 Hs2]; [|exact Hq1].
    split; [exact Hq2|congruence].
Qed.
End DatagramEffects.

Lemma WriteTo_duplicates_witness :
  let cfg := NewConfig [WithDuplicateRate 1; WithLatency 5] in
  let spc := PacketConn.newSimulatedPacketConn (mkNetPacketConn "127.0.0.1:8080" [] false) 0%nat in
  let w : World Z := mkWorld [rand_New 42] 0 [] [] in
  exists w',
    PacketConn.WriteTo cfg spc hello "127.0.0.1:8081" w
    = Done (PacketConn.set_readQueue
              [mkPacket hello "127.0.0.1:8081"; mkPacket hello "127.0.0.1:8081"] spc,
            (14, None)) w' /\
    clock w' = 10.
Proof.
  cbv zeta. eexists. split.
  - exact (WriteTo_duplicates (NewConfig [WithDuplicateRate 1; WithLatency 5])
      (PacketConn.newSimulatedPacketConn (mkNetPacketConn "127.0.0.1:8080" [] false) 0%nat)
      hello "127.0.0.1:8081" (mkWorld [rand_New 42] 0 [] []) (rand_New 42)
      ltac:(reflexivity) ltac:(reflexivity) ltac:(reflexivity)
      ltac:(repeat split; discriminate) eq_refl eq_refl
      ltac:(unfold PacketConn.capacity; cbn; lia) eq_refl).
  - reflexivity.
Defined.

Lemma WriteTo_reordered_witness :
  let cfg := NewConfig [WithReorderRate 1; WithLatency 5] in
  let spc := PacketConn.newSimulatedPacketConn (mkNetPacketConn "127.0.0.1:8080" [] false) 0%nat in
  let w : World Z := mkWorld [rand_New 42] 0 [] [] in
  exists spc1 w1 w2,
    PacketConn.WriteTo cfg spc hello "127.0.0.1:8081" w = Done (spc1, (14, None)) w1 /\
    clock w1 = 0 /\ PacketConn.readQueue spc1 = [] /\
    PacketConn.runSpawned cfg spc1 0 w1
    = Done (PacketConn.set_readQueue [mkPacket hello "127.0.0.1:8081"] spc) w2 /\
    clock w2 = 10.
Proof.
  cbv zeta.
  destruct (WriteTo_reordered (NewConfig [WithReorderRate 1; WithLatency 5])
    (PacketConn.newSimulatedPacketConn (mkNetPacketConn "127.0.0.1:8080" [] false) 0%nat)
    hello "127.0.0.1:8081" (mkWorld [rand_New 42] 0 [] []) (rand_New 42)
    ltac:(reflexivity) ltac:(reflexivity) ltac:(reflexivity)
    ltac:(repeat split; discriminate) eq_refl eq_refl) as (H1 & H2 & H3).
  do 3 eexists. split; [exact H1|]. split; [exact H2|]. split; [reflexivity|].
  split; [exact (H3 eq_refl ltac:(unfold PacketConn.capacity; cbn; lia))|reflexivity].
Defined.

Lemma Close_releases_datagram_tasks_witness :
  let spc := PacketConn.newSimulatedPacketConn (mkNetPacketConn "127.0.0.1:8080" [] false) 0%nat in
  let w : World Z := mkWorld [rand_New 42] 0 [] [] in
  exists spc1,
    PacketConn.Close spc w = Done (spc1, None) w /\
    PacketConn.ReadFrom spc [] w = Blocked /\
    PacketConn.ReadFrom spc1 [] w = Done (spc1, ([], 0, None, Some ErrClosed)) w /\
    PacketConn.writeLoop_step spc w = Blocked /\
    PacketConn.writeLoop_step spc1 w = Done (spc1, false) w.
Proof.
  cbv zeta.
  destruct (Close_releases_datagram_tasks (NewConfig [])
    (PacketConn.newSimulatedPacketConn (mkNetPacketConn "127.0.0.1:8080" [] false) 0%nat)
    [] (mkPacket hello "10.0.0.2:53") (inr EOF) (mkWorld [rand_New 42] 0 [] [])
    eq_refl eq_refl ltac:(repeat split; discriminate))
    as (spc1 & Hc & Hr & Hw & _).
  destruct (Hr eq_refl) as [Hr1 Hr2]. destruct (Hw eq_refl) as [Hw1 Hw2].
  exists spc1. repeat split; assumption.
Defined.

Lemma datagram_shim_never_transmits_witness :
  let cfg := set_rand 0%nat (NewConfig [WithDuplicateRate 1; WithReorderRate (1 # 2)]) in
  let spc := PacketConn.newSimulatedPacketConn (mkNetPacketConn "127.0.0.1:8080" [] false) 0%nat in
  let w : World Z := mkWorld [rand_New 42] 0 [] [] in
  let ops := [OpWriteTo hello "127.0.0.1:8081"; OpReadLoop (inl (mkPacket hello "10.0.0.2:53"));
              OpReadFrom [] ; OpWriteTo hello "127.0.0.1:8081"; OpSpawned 0; OpClose] in
  exists spc' w',
    dgram_run cfg spc ops w = Done spc' w' /\
    PacketConn.writeQueue spc' = [] /\ psent (PacketConn.conn spc') = [].
Proof.
  cbv zeta. do 2 eexists.
  split; [vm_compute; reflexivity|].
  eapply (datagram_shim_never_transmits
    (set_rand 0%nat (NewConfig [WithDuplicateRate 1; WithReorderRate (1 # 2)]))
    [OpWriteTo hello "127.0.0.1:8081"; OpReadLoop (inl (mkPacket hello "10.0.0.2:53"));
     OpReadFrom [] ; OpWriteTo hello "127.0.0.1:8081"; OpSpawned 0; OpClose]
    (PacketConn.newSimulatedPacketConn (mkNetPacketConn "127.0.0.1:8080" [] false) 0%nat)
    (mkWorld [rand_New 42] 0 [] [])); [reflexivity|vm_compute; reflexivity].
Defined.

(** ** Retained bytes, empty reads and a full queue on the stream shim *)

Section StreamEdges.
Context {R : Type} `{!RandSource R}.

Lemma set_readBuf_same sc : Conn.set_readBuf (Conn.readBuf sc) sc = sc.
Proof. destruct sc. reflexivity. Qed.

Lemma Read_retains cfg sc x (w : World R) r :
  (LossRate cfg == 0)%Q -> (DuplicateRate cfg == 1)%Q -> (ReorderRate cfg == 0)%Q ->
  fixed_latency cfg -> rands w !! Conn.rand sc = Some r ->
  exists w1 r1,
    Conn.Read cfg sc (fst x) (snd x) w
    = Done (Conn.set_readBuf (Conn.readBuf sc ++ got x) sc,
            (fst (copy (fst x) (got x)), len (got x), snd (snd x))) w1 /\
    rands w1 !! Conn.rand sc = Some r1.
Proof.
  intros Hl Hd Hr Hf Hp. unfold Conn.Read.
  erewrite bind_Done by (apply (stream_decision_off Loss); exact Hl).
  cbv beta iota zeta. fold (got x).
  destruct (0 <? len (got x)) eqn:E.
  - erewrite bind_Done by (apply (stream_decision_on Duplication); eassumption).
    cbv beta iota.
    erewrite bind_Done by (apply (stream_decision_off Reordering); exact Hr).
    cbn [andb].
    erewrite bind_Done by (apply simulateLatency_fixed; exact Hf).
    do 2 eexists. split; [reflexivity|].
    cbn. apply list_lookup_insert_eq. eapply lookup_lt_Some; eassumption.
  - assert (Hg : got x = []).
    { destruct (got x); [reflexivity|]. unfold len in E. cbn in E. discriminate. }
    rewrite Hg, app_nil_r, set_readBuf_same, copy_nil.
    exists w, r. split; [reflexivity|exact Hp].
Qed.

(** X19: on the read path a successful duplication draw gives the caller
    nothing twice.  With rates 0, 1, 0 every [Read] of a sequence hands
    the caller the bytes of the real connection once, with its count and
    error, and appends them to the retained buffer: after the sequence
    the shim retains every byte that was read, and no [Read] released
    any. *)
Theorem Read_duplication_only_retains (cfg : Config)
    (xs : list (list byte * (list byte * option error))) :
  forall (sc : Conn.simulatedConn) (w : World R) (r : R),
  (LossRate cfg == 0)%Q -> (DuplicateRate cfg == 1)%Q -> (ReorderRate cfg == 0)%Q ->
  fixed_latency cfg -> rands w !! Conn.rand sc = Some r ->
  exists w',
    reads cfg sc xs w
    = Done (Conn.set_readBuf (Conn.readBuf sc ++ concat (map got xs)) sc,
            map (fun x => (fst (copy (fst x) (got x)), len (got x), snd (snd x))) xs) w'.
Proof.
  induction xs as [|x rest IH]; intros sc w r Hl Hd Hr Hf Hp.
  - exists w. cbn. rewrite app_nil_r, set_readBuf_same. reflexivity.
  - destruct (Read_retains cfg sc x w r Hl Hd Hr Hf Hp) as (w1 & r1 & HR & Hp1).
    destruct (IH (Conn.set_readBuf (Conn.readBuf sc ++ got x) sc) w1 r1 Hl Hd Hr Hf Hp1)
      as (w' & HI).
    exists w'. cbn [reads].
    erewrite bind_Done by exact HR. cbn [fst snd].
    erewrite bind_Done by exact HI. cbn. rewrite <- app_assoc. reflexivity.
Qed.

(** X20: when the loss draw is off and the real connection delivers no
    byte (an error, the end of the stream, or an empty buffer of the
    caller), [Read] returns 0 with the error of the real connection and
    the buffer untouched, and applies nothing: no draw, no sleep and no
    change of the retained buffer, whatever the other rates and delays of
    the profile. *)
Theorem Read_of_nothing_is_untouched (cfg : Config) (sc : Conn.simulatedConn)
    (b : list byte) (resp : list byte * option error) (w : World R) :
  (LossRate cfg == 0)%Q -> take (length b) (fst resp) = [] ->
  Conn.Read cfg sc b resp w = Done (sc, (b, 0, snd resp)) w.
Proof.
  intros Hl Hn. unfold Conn.Read.
  erewrite bind_Done by (apply (stream_decision_off Loss); exact Hl).
  cbv beta iota zeta. rewrite Hn. reflexivity.
Qed.

(** X21: with 100 payloads queued on an open stream shim, a [Write] that
    is neither lost nor reordered blocks; one iteration of the draining
    task hands the oldest payload to the real connection, and the same
    [Write] then returns after the latency with its payload queued
    last. *)
Theorem Write_blocks_on_full_queue (cfg : Config) (sc : Conn.simulatedConn)
    (b : list byte) (w : World R) :
  (LossRate cfg == 0)%Q -> (DuplicateRate cfg == 0)%Q -> (ReorderRate cfg == 0)%Q ->
  fixed_latency cfg -> open_shim sc ->
  length (Conn.writeQueue sc) = Conn.capacity ->
  Conn.Write cfg sc b w = Blocked /\
  exists sc1 data rest,
    Conn.writeQueue sc = data :: rest /\
    Conn.processWriteQueue_step sc w = Done (sc1, true) w /\
    sent (Conn.conn sc1) = sent (Conn.conn sc) ++ [data] /\
    Conn.Write cfg sc1 b w
    = Done (Conn.set_writeQueue (rest ++ [b]) sc1, (len b, None)) (slept (Latency cfg) w).
Proof.
  intros Hl Hd Hr Hf Ho Hlen.
  assert (HW : forall s : Conn.simulatedConn,
            Conn.Write cfg s b w = (s' <- Conn.enqueueWrite s b ;; ret (s', (len b, None)))
                                     (slept (Latency cfg) w)).
  { intros s. unfold Conn.Write.
    erewrite bind_Done by (apply (stream_decision_off Loss); exact Hl).
    cbv beta iota.
    erewrite bind_Done by (apply (stream_decision_off Duplication); exact Hd).
    cbv beta iota. rewrite bind_ret_l.
    erewrite bind_Done by (apply (stream_decision_off Reordering); exact Hr).
    cbv beta iota.
    erewrite bind_Done by (apply simulateLatency_fixed; exact Hf).
    reflexivity. }
  destruct Ho as (Hc & Hq & Hcc).
  split.
  - rewrite HW. unfold bind, Conn.enqueueWrite. rewrite Hc, Hq, Hlen. reflexivity.
  - destruct (Conn.writeQueue sc) as [|data rest] eqn:Eq; [discriminate Hlen|].
    eexists _, data, rest. split; [reflexivity|].
    unfold Conn.processWriteQueue_step. rewrite Eq, Hq, Hc. cbn -[Conn.set_conn].
    unfold netConn_Write. rewrite Hcc. cbn -[Conn.set_conn].
    split; [reflexivity|]. split; [reflexivity|].
    rewrite HW.
    erewrite bind_Done.
    2:{ apply enqueueWrite_open.
        - repeat split; cbn; assumption.
        - cbn. cbn in Hlen. unfold Conn.capacity in *. lia. }
    reflexivity.
Qed.
End StreamEdges.

Lemma Read_duplication_only_retains_witness :
  let cfg := NewConfig [WithDuplicateRate 1; WithLatency 5] in
  let sc := Conn.mk (mkNetConn [] false) 0%nat [] [] false false false [] in
  let w : World Z := mkWorld [rand_New 42] 0 [] [] in
  let b := replicate 4 "000"%byte in
  exists sc' w',
    reads cfg sc [(b, (["001"; "002"]%byte, None)); (b, ([], Some EOF));
                  (b, (["003"; "004"; "005"; "006"; "007"]%byte, None))] w
    = Done (sc', [(["001"; "002"; "000"; "000"]%byte, 2, None);
                  (b, 0, Some EOF);
                  (["003"; "004"; "005"; "006"]%byte, 4, None)]) w' /\
    Conn.readBuf sc' = ["001"; "002"; "003"; "004"; "005"; "006"]%byte.
Proof.
  cbv zeta.
  destruct (Read_duplication_only_retains (NewConfig [WithDuplicateRate 1; WithLatency 5])
    [(replicate 4 "000"%byte, (["001"; "002"]%byte, None));
     (replicate 4 "000"%byte, ([], Some EOF));
     (replicate 4 "000"%byte, (["003"; "004"; "005"; "006"; "007"]%byte, None))]
    (Conn.mk (mkNetConn [] false) 0%nat [] [] false false false [])
    (mkWorld [rand_New 42] 0 [] []) (rand_New 42)
    ltac:(reflexivity) ltac:(reflexivity) ltac:(reflexivity)
    ltac:(repeat split; discriminate) eq_refl) as (w' & H).
  eexists _, w'. split; [exact H|reflexivity].
Defined.

Lemma Read_of_nothing_is_untouched_witness :
  let cfg := NewConfig [WithDuplicateRate 1; WithReorderRate 1; WithLatency 5;
                        WithJitter 3; WithBandwidth 1024] in
  let sc := Conn.mk (mkNetConn [] false) 0%nat hello [] false false false [] in
  let w : World Z := mkWorld [rand_New 42] 0 [] [] in
  Conn.Read cfg sc (replicate 4 "000"%byte) ([], Some EOF) w
  = Done (sc, (replicate 4 "000"%byte, 0, Some EOF)) w.
Proof.
  cbv zeta.
  exact (Read_of_nothing_is_untouched
    (NewConfig [WithDuplicateRate 1; WithReorderRate 1; WithLatency 5;
                WithJitter 3; WithBandwidth 1024])
    (Conn.mk (mkNetConn [] false) 0%nat hello [] false false false [])
    (replicate 4 "000"%byte) ([], Some EOF) (mkWorld [rand_New 42] 0 [] [])
    ltac:(reflexivity) eq_refl).
Defined.

Lemma Write_blocks_on_full_queue_witness :
  let cfg := NewConfig [WithLatency 5] in
  let sc := Conn.mk (mkNetConn [] false) 0%nat [] (replicate 100 hello) false false false [] in
  let w : World Z := mkWorld [rand_New 42] 0 [] [] in
  Conn.Write cfg sc ["007"]%byte w = Blocked /\
  exists sc1,
    Conn.processWriteQueue_step sc w = Done (sc1, true) w /\
    sent (Conn.conn sc1) = [hello] /\
    Conn.Write cfg sc1 ["007"]%byte w
    = Done (Conn.set_writeQueue (replicate 99 hello ++ [["007"]%byte]) sc1, (1, None))
        (mkWorld [rand_New 42] 5 [] []).
Proof.
  cbv zeta.
  destruct (Write_blocks_on_full_queue (NewConfig [WithLatency 5])
    (Conn.mk (mkNetConn [] false) 0%nat [] (replicate 100 hello) false false false [])
    ["007"]%byte (mkWorld [rand_New 42] 0 [] [])
    ltac:(reflexivity) ltac:(reflexivity) ltac:(reflexivity)
    ltac:(repeat split; discriminate) ltac:(repeat split) eq_refl)
    as (Hb & sc1 & data & rest & Hq & Hs & Hsent & Hw).
  split; [exact Hb|].
  exists sc1. split; [exact Hs|].
  change (Conn.writeQueue _) with (hello :: replicate 99 hello) in Hq.
  injection Hq as <- <-.
  split; [exact Hsent|exact Hw].
Defined.
